(** * sa-react: the todo manager's services, validation schema, form and views

    A shallow embedding of the JavaScript sources

    - [services/todoService.js]  ([getTodos], [getTodoById], [addTodo], [updateTodo]),
    - [components/TodoForm.js]   ([todoValidationSchema], [TodoForm]),
    - [pages/TodosListPage.js], [pages/TodoFormPage.js],
    - the single-page [App.js] that owns the list and the form,

    followed by the properties of the specification, stated on these
    definitions.

    Conventions.  JavaScript values are the inductive [jsval]; an object with
    the fields [id], [title], [completed], [userId] is the record [todo], an
    absent field being [JUndefined].  A string is a sequence of code units
    below 256.  Finite numbers are rationals (every double is one); the two
    conversions between numbers and strings are left to the engine
    ([JsEngine]).  An [async] function is cut at its [await]: the part before
    it is a function that yields the request, the part after it a function of
    the reply. *)

From Stdlib Require Import ZArith QArith String Ascii List Bool Lia.
From stdpp Require Import base tactics option list gmap strings pretty.

Local Open Scope Z_scope.

(** ** JavaScript values *)

Module Js.

(** A number: NaN, an infinity, or a finite value. *)
Inductive number :=
| NaN
| Inf (negative : bool)
| Fin (q : Q).

Inductive jsval :=
| JUndefined
| JNull
| JBool (b : bool)
| JNum (n : number)
| JStr (s : string).

Definition num (z : Z) : jsval := JNum (Fin (inject_Z z)).

(** [a == 0] on finite values. *)
Definition is_zero (q : Q) : bool := Qeq_bool q 0.

(** ToBoolean. *)
Definition truthy (v : jsval) : bool :=
  match v with
  | JUndefined | JNull => false
  | JBool b => b
  | JNum NaN => false
  | JNum (Inf _) => true
  | JNum (Fin q) => negb (is_zero q)
  | JStr s => negb (String.eqb s "")
  end.

(** [a || b] *)
Definition or (a b : jsval) : jsval := if truthy a then a else b.

(** [a === b] on numbers: NaN differs from everything, itself included. *)
Definition number_eq (a b : number) : bool :=
  match a, b with
  | Fin p, Fin q => Qeq_bool p q
  | Inf s, Inf t => Bool.eqb s t
  | _, _ => false
  end.

(** [a === b] *)
Definition strict_eq (a b : jsval) : bool :=
  match a, b with
  | JUndefined, JUndefined => true
  | JNull, JNull => true
  | JBool x, JBool y => Bool.eqb x y
  | JNum x, JNum y => number_eq x y
  | JStr x, JStr y => String.eqb x y
  | _, _ => false
  end.

(** [a <= b] on numbers; false as soon as NaN is involved. *)
Definition number_le (a b : number) : bool :=
  match a, b with
  | NaN, _ | _, NaN => false
  | Inf true, _ => true
  | _, Inf false => true
  | Inf false, _ => false
  | _, Inf true => false
  | Fin p, Fin q => Qle_bool p q
  end.

(** [v === undefined || v === null] *)
Definition nullish (v : jsval) : bool :=
  match v with
  | JUndefined | JNull => true
  | _ => false
  end.

(** White space as [String.prototype.trim] and the regular expression
    class [\s] see it, among the code units below 256. *)
Definition is_white_space (c : ascii) : bool :=
  match c with
  | "009" | "010" | "011" | "012" | "013" | " " | "160" => true
  | _ => false
  end%char.

Fixpoint trim_start (s : string) : string :=
  match s with
  | EmptyString => EmptyString
  | String c s' => if is_white_space c then trim_start s' else s
  end.

(** [s.trim()] *)
Definition trim (s : string) : string :=
  String.rev (trim_start (String.rev (trim_start s))).

(** [s.replace(/\s/g, '')] *)
Fixpoint strip_white_space (s : string) : string :=
  match s with
  | EmptyString => EmptyString
  | String c s' =>
      if is_white_space c then strip_white_space s'
      else String c (strip_white_space s')
  end.

(** Every code unit of [s] is white space. *)
Fixpoint all_white_space (s : string) : bool :=
  match s with
  | EmptyString => true
  | String c s' => is_white_space c && all_white_space s'
  end.

(** The two conversions the engine provides: the unary [+] on a string
    (StringToNumber) and [Number.prototype.toString] (Number::toString). *)
Class JsEngine := {
  StringToNumber : string -> number;
  NumberToString : number -> string
}.

(** [String(v)], also what a template literal does with [v]. *)
Definition to_string {E : JsEngine} (v : jsval) : string :=
  match v with
  | JUndefined => "undefined"
  | JNull => "null"
  | JBool true => "true"
  | JBool false => "false"
  | JNum n => NumberToString n
  | JStr s => s
  end.

End Js.

(** ** The Todo resource *)

Module Todo.
Import Js.

(** A JSON object [{ id, title, completed, userId }]; a field that is not
    there reads as [JUndefined]. *)
Record todo := {
  id : jsval;
  title : jsval;
  completed : jsval;
  userId : jsval
}.

Definition set_title (v : jsval) (t : todo) : todo :=
  {| id := id t; title := v; completed := completed t; userId := userId t |}.
Definition set_completed (v : jsval) (t : todo) : todo :=
  {| id := id t; title := title t; completed := v; userId := userId t |}.
Definition set_userId (v : jsval) (t : todo) : todo :=
  {| id := id t; title := title t; completed := completed t; userId := v |}.

(** [t[key]] and [{ ...t, [key]: v }] for the keys of a todo. *)
Definition get (key : string) (t : todo) : jsval :=
  if String.eqb key "id" then id t
  else if String.eqb key "title" then title t
  else if String.eqb key "completed" then completed t
  else if String.eqb key "userId" then userId t
  else JUndefined.

Definition set (key : string) (v : jsval) (t : todo) : todo :=
  if String.eqb key "id"
  then {| id := v; title := title t; completed := completed t; userId := userId t |}
  else if String.eqb key "title" then set_title v t
  else if String.eqb key "completed" then set_completed v t
  else if String.eqb key "userId" then set_userId v t
  else t.

Global Instance Q_eq_dec : EqDecision Q.
Proof. solve_decision. Defined.
Global Instance number_eq_dec : EqDecision number.
Proof. solve_decision. Defined.
Global Instance jsval_eq_dec : EqDecision jsval.
Proof. solve_decision. Defined.
Global Instance todo_eq_dec : EqDecision todo.
Proof. solve_decision. Defined.
End Todo.

(** ** Data access layer: [services/todoService.js] *)

Module Services.
Import Js.
Import Todo (todo).

(** What [apiClient] is asked to do. *)
Inductive request :=
| Get (url : string)
| Post (url : string) (payload : todo)
| Put (url : string) (payload : todo).

(** The body of a non-2xx response, as the [catch] blocks read it:
    [data?.message] and the text of [JSON.stringify(data)]. *)
Record error_body := {
  body_message : jsval;
  body_json : string
}.

(** The value [apiClient] rejects with: [error.response] (status and body)
    when the server answered, [error.request] when the request left, and
    [error.message], a string that is empty when there is none. *)
Record axios_error := {
  response : option (jsval * error_body);
  request_sent : bool;
  axios_message : string
}.

(** [text || fallback] on strings. *)
Definition or_text (text fallback : string) : string :=
  if String.eqb text "" then fallback else text.

(** The reply of the remote store to one request. *)
Inductive reply (A : Type) :=
| Response (data : A)
| Failure (e : axios_error).
Arguments Response {A} data.
Arguments Failure {A} e.

(** What the service functions throw. *)
Inductive js_error :=
| Error (msg : string)
| TypeError (msg : string).

(** [error.message] *)
Definition message (e : js_error) : string :=
  match e with Error m | TypeError m => m end.

(** [String(error)] *)
Definition error_text (e : js_error) : string :=
  match e with
  | Error m => if String.eqb m "" then "Error" else "Error: " +:+ m
  | TypeError m => if String.eqb m "" then "TypeError" else "TypeError: " +:+ m
  end.

(** [err.message || String(err)] *)
Definition message_or_text (e : js_error) : string :=
  or_text (message e) (error_text e).

(** How an [async] function settles. *)
Inductive settled (A : Type) :=
| Fulfilled (value : A)
| Rejected (reason : js_error).
Arguments Fulfilled {A} value.
Arguments Rejected {A} reason.

Section WithEngine.
Context {E : JsEngine}.

(** The [catch] block shared by the four functions; [unknown] is the
    text used when the failure carries no message. *)
Definition normalize (unknown : string) (error : axios_error) : js_error :=
  match response error with
  | Some (status, data) =>
      Error ("API error " +:+ to_string status +:+ ": " +:+
             (if truthy (body_message data)
              then to_string (body_message data)
              else body_json data))
  | None =>
      if request_sent error
      then Error "No response received from Todos API"
      else Error (or_text (axios_message error) unknown)
  end.

(** The part of a service function after its [await]. *)
Definition finish {A} (unknown : string) (r : reply A) : settled A :=
  match r with
  | Response data => Fulfilled data
  | Failure e => Rejected (normalize unknown e)
  end.

(** [getTodos()] *)
Definition getTodos_request : request := Get "/todos".
Definition getTodos (store : request -> reply (list todo))
  : list request * settled (list todo) :=
  ([getTodos_request], finish "Unknown error fetching todos" (store getTodos_request)).

(** [getTodoById(id)] up to its [await]. *)
Definition getTodoById_start (id : jsval) : js_error + request :=
  if nullish id then inl (Error "Todo id is required")
  else inr (Get ("/todos/" +:+ to_string id)).

Definition getTodoById (store : request -> reply todo) (id : jsval)
  : list request * settled todo :=
  match getTodoById_start id with
  | inl e => ([], Rejected e)
  | inr req => ([req], finish "Unknown error fetching todo" (store req))
  end.

(** [!todoData.title || todoData.title.trim() === ''], or the TypeError
    of calling [trim] on a value that is not a string. *)
Definition title_guard (title : jsval) : option js_error :=
  if negb (truthy title) then Some (Error "Todo title is required")
  else match title with
       | JStr s =>
           if String.eqb (trim s) "" then Some (Error "Todo title is required")
           else None
       | _ => Some (TypeError "todoData.title.trim is not a function")
       end.

(** The payload of [addTodo]. *)
Definition addTodo_payload (todoData : todo) : todo :=
  {| Todo.id := JUndefined;
     Todo.title := Todo.title todoData;
     Todo.completed := or (Todo.completed todoData) (JBool false);
     Todo.userId := or (Todo.userId todoData) (num 1) |}.

(** [addTodo(todoData)] up to its [await]. *)
Definition addTodo_start (todoData : todo) : js_error + request :=
  match title_guard (Todo.title todoData) with
  | Some e => inl e
  | None => inr (Post "/todos" (addTodo_payload todoData))
  end.

(** [addTodo(todoData)] from its [await] on. *)
Definition addTodo_settle (r : reply todo) : settled todo :=
  finish "Unknown error creating todo" r.

(** [addTodo(todoData)]: the requests made and the way it settles. *)
Definition addTodo (store : request -> reply todo) (todoData : todo)
  : list request * settled todo :=
  match addTodo_start todoData with
  | inl e => ([], Rejected e)
  | inr req => ([req], addTodo_settle (store req))
  end.

(** The payload of [updateTodo]. *)
Definition updateTodo_payload (id : jsval) (todoData : todo) : todo :=
  {| Todo.id := id;
     Todo.title := Todo.title todoData;
     Todo.completed := or (Todo.completed todoData) (JBool false);
     Todo.userId := or (Todo.userId todoData) (num 1) |}.

(** [updateTodo(id, todoData)] up to its [await]. *)
Definition updateTodo_start (id : jsval) (todoData : todo) : js_error + request :=
  if nullish id then inl (Error "Todo id is required")
  else match title_guard (Todo.title todoData) with
       | Some e => inl e
       | None => inr (Put ("/todos/" +:+ to_string id) (updateTodo_payload id todoData))
       end.

(** [updateTodo(id, todoData)] from its [await] on. *)
Definition updateTodo_settle (r : reply todo) : settled todo :=
  finish "Unknown error updating todo" r.

(** [updateTodo(id, todoData)] *)
Definition updateTodo (store : request -> reply todo) (id : jsval) (todoData : todo)
  : list request * settled todo :=
  match updateTodo_start id todoData with
  | inl e => ([], Rejected e)
  | inr req => ([req], updateTodo_settle (store req))
  end.

End WithEngine.
End Services.

(** ** The schema library, as far as [todoValidationSchema] uses it

    [yup] and the resolver of [react-hook-form] are libraries the
    application calls; their behaviour (yup 1.x, [abortEarly: false], first
    message per path) is modelled here, the schema itself below is the one
    of [components/TodoForm.js]. *)

Module Yup.
Import Js.

Inductive type := TString | TNumber | TBoolean.

(** A validation message: the text the schema gives, or one of the
    library's own for the path at hand. *)
Inductive message :=
| Text (s : string)
| NotType (expected : type) (final : jsval)
| NotNull.

Global Instance type_eq_dec : EqDecision type.
Proof. solve_decision. Defined.
Global Instance message_eq_dec : EqDecision message.
Proof. solve_decision. Defined.

(** A test added by [min], [max], ...; all of them skip an absent value. *)
Record test := {
  name : string;
  msg : message;
  holds : jsval -> bool
}.

Record schema := {
  type_of : type;
  not_null : message;            (* message of the nullability test *)
  defined : option message;      (* message of the optionality test, if any *)
  tests : list test;
  default_value : jsval
}.

Definition base (t : type) : schema :=
  {| type_of := t; not_null := NotNull; defined := None; tests := [];
     default_value := JUndefined |}.

(** [yup.string()], [yup.number()], [yup.boolean()] *)
Definition string : schema := base TString.
Definition number : schema := base TNumber.
Definition boolean : schema := base TBoolean.

Definition add_test (t : test) (s : schema) : schema :=
  {| type_of := type_of s; not_null := not_null s; defined := defined s;
     tests := tests s ++ [t]; default_value := default_value s |}.

(** [value.length] *)
Definition length_of (s : String.string) : Z := Z.of_nat (String.length s).

(** [.min(n, message)]: [value.length >= n] on a string schema,
    [value >= n] on a number schema. *)
Definition min (n : Z) (m : String.string) (s : schema) : schema :=
  add_test
    {| name := "min"; msg := Text m;
       holds v := match type_of s, v with
                  | TString, JStr x => n <=? length_of x
                  | TNumber, JNum x => number_le (Fin (inject_Z n)) x
                  | _, _ => true
                  end |} s.

(** [.max(n, message)] *)
Definition max (n : Z) (m : String.string) (s : schema) : schema :=
  add_test
    {| name := "max"; msg := Text m;
       holds v := match type_of s, v with
                  | TString, JStr x => length_of x <=? n
                  | TNumber, JNum x => number_le x (Fin (inject_Z n))
                  | _, _ => true
                  end |} s.

(** [.required(message)]: neither null nor undefined; on a string schema
    also the test [!!value.length]. *)
Definition required (m : String.string) (s : schema) : schema :=
  let s' := {| type_of := type_of s; not_null := Text m; defined := Some (Text m);
               tests := tests s; default_value := default_value s |} in
  match type_of s with
  | TString =>
      add_test {| name := "required"; msg := Text m;
                  holds v := match v with
                             | JStr x => negb (length_of x =? 0)
                             | _ => true
                             end |} s'
  | _ => s'
  end.

(** [.default(v)] *)
Definition default (v : jsval) (s : schema) : schema :=
  {| type_of := type_of s; not_null := not_null s; defined := defined s;
     tests := tests s; default_value := v |}.

(** The type check of each schema. *)
Definition type_check (t : type) (v : jsval) : bool :=
  match t, v with
  | TString, JStr _ => true
  | TNumber, JNum NaN => false
  | TNumber, JNum _ => true
  | TBoolean, JBool _ => true
  | _, _ => false
  end.

(** Lower case of the letters of [true] and [false] (the [i] flag). *)
Definition lower (c : ascii) : ascii :=
  match c with
  | "T" => "t" | "R" => "r" | "U" => "u" | "E" => "e"
  | "F" => "f" | "A" => "a" | "L" => "l" | "S" => "s"
  | _ => c
  end%char.

Fixpoint lower_string (s : String.string) : String.string :=
  match s with
  | EmptyString => EmptyString
  | String c s' => String (lower c) (lower_string s')
  end.

Section WithEngine.
Context {E : JsEngine}.

(** The transform each schema applies to a raw value that is not
    [undefined]. *)
Definition transform (t : type) (v : jsval) : jsval :=
  match t with
  | TString =>
      match v with
      | JStr _ | JNull | JUndefined => v
      | _ => JStr (to_string v)
      end
  | TNumber =>
      match v with
      | JStr x =>
          let parsed := strip_white_space x in
          if String.eqb parsed "" then JNum NaN
          else JNum (StringToNumber parsed)
      | JNum _ | JNull => v
      | JBool _ | JUndefined => JNum NaN          (* parseFloat(v) *)
      end
  | TBoolean =>
      match v with
      | JBool _ => v
      | _ =>
          let text := lower_string (to_string v) in
          if String.eqb text "true" || String.eqb text "1" then JBool true
          else if String.eqb text "false" || String.eqb text "0" then JBool false
          else v
      end
  end.

(** [schema.cast(raw)]: [undefined] is not transformed, and an
    [undefined] result is replaced by the default. *)
Definition cast (s : schema) (raw : jsval) : jsval :=
  let v := match raw with
           | JUndefined => JUndefined
           | _ => transform (type_of s) raw
           end in
  match v with
  | JUndefined => default_value s
  | _ => v
  end.

(** The tests run first: type, nullability, optionality. *)
Definition initial_errors (s : schema) (v : jsval) : list message :=
  (if nullish v || type_check (type_of s) v then [] else [NotType (type_of s) v]) ++
  (match v with JNull => [not_null s] | _ => [] end) ++
  (match v, defined s with JUndefined, Some m => [m] | _, _ => [] end).

Definition run_test (v : jsval) (t : test) : option message :=
  if nullish v || holds t v then None else Some (msg t).

(** All the messages of one field; the tests of the schema are run only
    when the first three pass. *)
Definition field_errors (s : schema) (raw : jsval) : list message :=
  let v := cast s raw in
  match initial_errors s v with
  | [] => omap (run_test v) (tests s)
  | errs => errs
  end.

(** What the resolver keeps for a path: the first message. *)
Definition field_error (s : schema) (raw : jsval) : option message :=
  head (field_errors s raw).

(** [yup.object().shape(fields)] validated with [abortEarly: false] and
    reduced by the resolver: a mapping from each failing path to its
    first message.  [read] gives the value of a key. *)
Definition object_errors (fields : list (String.string * schema))
    (read : String.string -> jsval) : gmap String.string message :=
  list_to_map
    (omap (fun '(key, s) => (fun m => (key, m)) <$> field_error s (read key)) fields).

End WithEngine.
End Yup.

(** ** The form: [components/TodoForm.js] *)

Module TodoForm.
Import Js.
Import Todo (todo).
Import Services (request, reply, settled, js_error).

Notation "s |> f" := (f s) (at level 45, left associativity, only parsing).

Definition title_schema : Yup.schema :=
  Yup.string
    |> Yup.min 3 "Title must be at least 3 characters"
    |> Yup.max 100 "Title must not exceed 100 characters"
    |> Yup.required "Title is required".

Definition completed_schema : Yup.schema :=
  Yup.boolean |> Yup.default (JBool false).

Definition userId_schema : Yup.schema :=
  Yup.number
    |> Yup.min 1 "User ID must be at least 1"
    |> Yup.max 10 "User ID must not exceed 10"
    |> Yup.required "User ID is required".

Definition todoValidationSchema : list (string * Yup.schema) :=
  [("title", title_schema); ("completed", completed_schema); ("userId", userId_schema)].

(** The props of the component; a callback is either passed or not. *)
Record props := {
  initialData : option todo;
  onSubmitSuccess : bool;
  onCancel : bool
}.

(** A call of the data access layer made by [onSubmit]. *)
Inductive call :=
| AddTodo (data : todo)
| UpdateTodo (id : jsval) (data : todo).

(** A callback of the parent invoked by the form. *)
Inductive notice :=
| SubmitSuccess (result : todo)
| Cancelled.

(** The component: its props; the values, the errors and [isSubmitted]
    kept by [react-hook-form]; its two state variables; the service calls
    that invocations of [onSubmit] are suspended on, the one of the latest
    submission in [awaiting] and those of earlier submissions that are
    still in flight in [earlier]; and what it has done so far.
    [unrendered] says that [isSubmitting] was set to true and React has not
    rendered since: on screen the inputs and the buttons are still
    enabled. *)
Record form := {
  given : props;
  values : todo;
  errors : gmap string Yup.message;
  isSubmitted : bool;
  isSubmitting : bool;
  submitError : option string;
  unrendered : bool;
  awaiting : option call;
  earlier : list call;
  calls : list call;
  requests : list request;
  notices : list notice
}.

Definition emptyDefaults : todo :=
  {| Todo.id := JUndefined; Todo.title := JStr ""; Todo.completed := JBool false;
     Todo.userId := num 1 |}.

(** [initialData || { title: '', completed: false, userId: 1 }] *)
Definition defaultValues (p : props) : todo :=
  match initialData p with
  | Some t => t
  | None => emptyDefaults
  end.

(** [!!initialData?.id] *)
Definition isEditMode (p : props) : bool :=
  match initialData p with
  | Some t => truthy (Todo.id t)
  | None => false
  end.

(** [initialData.id], read in edit mode only. *)
Definition initialData_id (p : props) : jsval :=
  match initialData p with
  | Some t => Todo.id t
  | None => JUndefined
  end.

(** The form as first rendered. *)
Definition mount (p : props) : form :=
  {| given := p; values := defaultValues p; errors := ∅; isSubmitted := false;
     isSubmitting := false; submitError := None; unrendered := false;
     awaiting := None; earlier := []; calls := []; requests := [];
     notices := [] |}.

Definition setIsSubmitting (b : bool) (f : form) : form :=
  {| given := given f; values := values f; errors := errors f;
     isSubmitted := isSubmitted f; isSubmitting := b;
     submitError := submitError f; unrendered := unrendered f;
     awaiting := awaiting f; earlier := earlier f; calls := calls f;
     requests := requests f; notices := notices f |}.

Definition setSubmitError (e : option string) (f : form) : form :=
  {| given := given f; values := values f; errors := errors f;
     isSubmitted := isSubmitted f; isSubmitting := isSubmitting f;
     submitError := e; unrendered := unrendered f; awaiting := awaiting f;
     earlier := earlier f; calls := calls f; requests := requests f;
     notices := notices f |}.

Definition set_errors (e : gmap string Yup.message) (f : form) : form :=
  {| given := given f; values := values f; errors := e;
     isSubmitted := isSubmitted f; isSubmitting := isSubmitting f;
     submitError := submitError f; unrendered := unrendered f;
     awaiting := awaiting f; earlier := earlier f; calls := calls f;
     requests := requests f; notices := notices f |}.

Definition set_values (v : todo) (f : form) : form :=
  {| given := given f; values := v; errors := errors f;
     isSubmitted := isSubmitted f; isSubmitting := isSubmitting f;
     submitError := submitError f; unrendered := unrendered f;
     awaiting := awaiting f; earlier := earlier f; calls := calls f;
     requests := requests f; notices := notices f |}.

Definition set_isSubmitted (b : bool) (f : form) : form :=
  {| given := given f; values := values f; errors := errors f;
     isSubmitted := b; isSubmitting := isSubmitting f;
     submitError := submitError f; unrendered := unrendered f;
     awaiting := awaiting f; earlier := earlier f; calls := calls f;
     requests := requests f; notices := notices f |}.

Definition set_unrendered (b : bool) (f : form) : form :=
  {| given := given f; values := values f; errors := errors f;
     isSubmitted := isSubmitted f; isSubmitting := isSubmitting f;
     submitError := submitError f; unrendered := b; awaiting := awaiting f;
     earlier := earlier f; calls := calls f; requests := requests f;
     notices := notices f |}.

Definition set_awaiting (a : option call) (f : form) : form :=
  {| given := given f; values := values f; errors := errors f;
     isSubmitted := isSubmitted f; isSubmitting := isSubmitting f;
     submitError := submitError f; unrendered := unrendered f; awaiting := a;
     earlier := earlier f; calls := calls f; requests := requests f;
     notices := notices f |}.

Definition set_earlier (l : list call) (f : form) : form :=
  {| given := given f; values := values f; errors := errors f;
     isSubmitted := isSubmitted f; isSubmitting := isSubmitting f;
     submitError := submitError f; unrendered := unrendered f;
     awaiting := awaiting f; earlier := l; calls := calls f;
     requests := requests f; notices := notices f |}.

Definition record_call (c : call) (f : form) : form :=
  {| given := given f; values := values f; errors := errors f;
     isSubmitted := isSubmitted f; isSubmitting := isSubmitting f;
     submitError := submitError f; unrendered := unrendered f;
     awaiting := awaiting f; earlier := earlier f; calls := calls f ++ [c];
     requests := requests f; notices := notices f |}.

Definition record_request (r : request) (f : form) : form :=
  {| given := given f; values := values f; errors := errors f;
     isSubmitted := isSubmitted f; isSubmitting := isSubmitting f;
     submitError := submitError f; unrendered := unrendered f;
     awaiting := awaiting f; earlier := earlier f; calls := calls f;
     requests := requests f ++ [r]; notices := notices f |}.

Definition notify (n : notice) (f : form) : form :=
  {| given := given f; values := values f; errors := errors f;
     isSubmitted := isSubmitted f; isSubmitting := isSubmitting f;
     submitError := submitError f; unrendered := unrendered f;
     awaiting := awaiting f; earlier := earlier f; calls := calls f;
     requests := requests f; notices := notices f ++ [n] |}.

(** [reset()]: back to the default values, no errors, not submitted. *)
Definition reset (f : form) : form :=
  set_isSubmitted false (set_errors ∅ (set_values (defaultValues (given f)) f)).

(** An invocation of [onSubmit] is suspended on the call [c]: the call of
    the submission before, if it is still in flight, joins the earlier
    ones. *)
Definition suspend (c : call) (f : form) : form :=
  set_awaiting (Some c)
    (set_earlier (earlier f ++ match awaiting f with Some c0 => [c0] | None => [] end) f).

(** [disabled={isSubmitting}] as it is on screen. *)
Definition disabled (f : form) : bool := isSubmitting f && negb (unrendered f).

Section WithEngine.
Context {E : JsEngine}.

(** [validate(draft)]: the resolver's errors for the values of the form. *)
Definition validate (draft : todo) : gmap string Yup.message :=
  Yup.object_errors todoValidationSchema (fun key => Todo.get key draft).

(** The values the resolver hands to [onSubmit]: each field of the
    schema cast, the other keys as they are. *)
Definition cast_values (draft : todo) : todo :=
  foldl (fun acc '(key, s) => Todo.set key (Yup.cast s (Todo.get key draft)) acc)
        draft todoValidationSchema.

(** The part of a service call before its [await] ... *)
Definition call_start (c : call) : js_error + request :=
  match c with
  | AddTodo data => Services.addTodo_start data
  | UpdateTodo id data => Services.updateTodo_start id data
  end.

(** ... and the part after it. *)
Definition call_finish (c : call) (r : reply todo) : settled todo :=
  match c with
  | AddTodo _ => Services.addTodo_settle r
  | UpdateTodo _ _ => Services.updateTodo_settle r
  end.

(** [onSubmit] after its [await]: the [try] block's tail, the [catch]
    block, then [finally]; [handleSubmit], which was waiting for
    [onSubmit], then ends by setting [isSubmitted]. *)
Definition onSubmit_resume (outcome : settled todo) (f : form) : form :=
  set_isSubmitted true
    (setIsSubmitting false
       match outcome with
       | Services.Fulfilled result =>
           let f := reset f in
           if onSubmitSuccess (given f) then notify (SubmitSuccess result) f else f
       | Services.Rejected error =>
           setSubmitError
             (Some (Services.or_text (Services.message error)
                      "Failed to save todo. Please try again.")) f
       end).

(** [onSubmit(data)] up to its [await]; a service function that throws
    before reaching the store resumes it at once.  Nothing in [onSubmit]
    looks at [isSubmitting]: it makes its call whenever it is invoked. *)
Definition onSubmit (data : todo) (f : form) : form :=
  let f := set_unrendered true (setSubmitError None (setIsSubmitting true f)) in
  let c := if isEditMode (given f)
           then UpdateTodo (initialData_id (given f)) data
           else AddTodo data in
  let f := record_call c f in
  match call_start c with
  | inl error => onSubmit_resume (Services.Rejected error) f
  | inr req => suspend c (record_request req f)
  end.

(** The resolver run on the current values, its errors stored in the
    form state. *)
Definition resolve (f : form) : form := set_errors (validate (values f)) f.

(** [handleSubmit(onSubmit)]: run the resolver, keep its errors, and call
    [onSubmit] with the cast values only when there is none; with errors
    it ends at once, setting [isSubmitted]. *)
Definition handleSubmit (f : form) : form :=
  let f := resolve f in
  if decide (errors f = ∅) then onSubmit (cast_values (values f)) f
  else set_isSubmitted true f.

(** The change handler of a registered input: the value of the field, and
    once the form has been submitted ([reValidateMode] is [onChange]) the
    resolver again, of whose errors the one of this field is taken. *)
Definition handleChange (key : string) (v : jsval) (f : form) : form :=
  let f := set_values (Todo.set key v (values f)) f in
  if isSubmitted f
  then set_errors
         match validate (values f) !! key with
         | Some m => <[key := m]> (errors f)
         | None => delete key (errors f)
         end f
  else f.

(** [handleCancel] *)
Definition handleCancel (f : form) : form :=
  let f := reset f in
  if onCancel (given f) then notify Cancelled f else f.

(** What can happen to a mounted form. *)
Inductive event :=
| Submit                                   (* the form is submitted *)
| Change (key : string) (v : jsval)        (* an input is edited *)
| Cancel                                   (* the Cancel button is clicked *)
| Reply (r : reply todo)                   (* the store answers the latest call *)
| ReplyTo (i : nat) (r : reply todo)       (* ... or an earlier one *)
| Render.                                  (* React renders the pending state *)

(** One event.  The inputs and both buttons carry
    [disabled={isSubmitting}]: once React has rendered the form with
    [isSubmitting] true the browser delivers neither edits nor clicks nor
    submissions; until then it does, a second submission included.  When
    [isSubmitting] goes back to false the form counts as enabled at once,
    at most one render before the screen shows it so: the runs of [step]
    include those of the component. *)
Definition step (f : form) (e : event) : form :=
  match e with
  | Submit => if disabled f then f else handleSubmit f
  | Change key v => if disabled f then f else handleChange key v f
  | Cancel => if disabled f then f else handleCancel f
  | Reply r =>
      match awaiting f with
      | Some c => onSubmit_resume (call_finish c r) (set_awaiting None f)
      | None => f
      end
  | ReplyTo i r =>
      match earlier f !! i with
      | Some c => onSubmit_resume (call_finish c r) (set_earlier (delete i (earlier f)) f)
      | None => f
      end
  | Render => set_unrendered false f
  end.

Definition run (f : form) (es : list event) : form := foldl step f es.

(** The states a form can be in. *)
Inductive reachable : form -> Prop :=
| reachable_mount p : reachable (mount p)
| reachable_step f e : reachable f -> reachable (step f e).

End WithEngine.
End TodoForm.

(** ** The list view: [pages/TodosListPage.js] *)

Module TodosListPage.
Import Todo (todo).
Import Services (settled).

(** The three state variables, and the variable [mounted] of the effect. *)
Record page := {
  todos : list todo;
  loading : bool;
  error : option string;
  mounted : bool
}.

Definition setTodos (l : list todo) (s : page) : page :=
  {| todos := l; loading := loading s; error := error s; mounted := mounted s |}.
Definition setLoading (b : bool) (s : page) : page :=
  {| todos := todos s; loading := b; error := error s; mounted := mounted s |}.
Definition setError (e : option string) (s : page) : page :=
  {| todos := todos s; loading := loading s; error := e; mounted := mounted s |}.

(** After the first render and the effect up to [getTodos()]: the load is
    in flight. *)
Definition mount : page :=
  {| todos := []; loading := true; error := None; mounted := true |}.

(** The cleanup the effect returns: [mounted = false]. *)
Definition unmount (s : page) : page :=
  {| todos := todos s; loading := loading s; error := error s; mounted := false |}.

(** [.then(...).catch(...).finally(...)] once [getTodos()] has settled. *)
Definition settle (outcome : settled (list todo)) (s : page) : page :=
  let s :=
    match outcome with
    | Services.Fulfilled data => if mounted s then setTodos data s else s
    | Services.Rejected err =>
        if mounted s then setError (Some (Services.message_or_text err)) s else s
    end in
  if mounted s then setLoading false s else s.

(** The state the component renders from. *)
Definition shown (s : page) : list todo * bool * option string :=
  (todos s, loading s, error s).
End TodosListPage.

(** ** The add and edit view: [pages/TodoFormPage.js] *)

Module TodoFormPage.
Import Js.
Import Todo (todo).
Import Services (settled).

(** The route parameter [id] and the three state variables.  The effect
    declares no variable of its own and returns no cleanup; [live] is
    React's own record of the component being mounted: the setters of a
    component that has been unmounted do nothing. *)
Record page := {
  id : jsval;
  initialData : option todo;
  loading : bool;
  error : option string;
  live : bool
}.

(** [Boolean(id)] *)
Definition isEditMode (id : jsval) : bool := truthy id.

Definition setInitialData (d : option todo) (s : page) : page :=
  if live s
  then {| id := id s; initialData := d; loading := loading s; error := error s;
          live := live s |}
  else s.
Definition setLoading (b : bool) (s : page) : page :=
  if live s
  then {| id := id s; initialData := initialData s; loading := b; error := error s;
          live := live s |}
  else s.
Definition setError (e : option string) (s : page) : page :=
  if live s
  then {| id := id s; initialData := initialData s; loading := loading s; error := e;
          live := live s |}
  else s.

(** After the first render and the effect: in edit mode [getTodoById(id)]
    is in flight. *)
Definition mount (id : jsval) : page :=
  {| id := id; initialData := None; loading := isEditMode id; error := None;
     live := true |}.

(** Tearing the view down: the effect has no cleanup to run, and React
    lets go of the component. *)
Definition unmount (s : page) : page :=
  {| id := id s; initialData := initialData s; loading := loading s; error := error s;
     live := false |}.

(** [.then(...).catch(...)] once [getTodoById(id)] has settled. *)
Definition settle (outcome : settled todo) (s : page) : page :=
  match outcome with
  | Services.Fulfilled data => setLoading false (setInitialData (Some data) s)
  | Services.Rejected err =>
      setLoading false (setError (Some (Services.message_or_text err)) s)
  end.

(** The state the component renders from. *)
Definition shown (s : page) : option todo * bool * option string :=
  (initialData s, loading s, error s).
End TodoFormPage.

(** ** The single-page variant that owns both list and form: [App.js] *)

Module App.
Import Js.
Import Todo (todo).
Import Services (settled).

Record app := {
  todos : list todo;
  loading : bool;
  error : option string;
  showForm : bool;
  editingTodo : option todo;
  mounted : bool
}.

Definition setTodos (l : list todo) (s : app) : app :=
  {| todos := l; loading := loading s; error := error s; showForm := showForm s;
     editingTodo := editingTodo s; mounted := mounted s |}.
Definition setLoading (b : bool) (s : app) : app :=
  {| todos := todos s; loading := b; error := error s; showForm := showForm s;
     editingTodo := editingTodo s; mounted := mounted s |}.
Definition setError (e : option string) (s : app) : app :=
  {| todos := todos s; loading := loading s; error := e; showForm := showForm s;
     editingTodo := editingTodo s; mounted := mounted s |}.
Definition setShowForm (b : bool) (s : app) : app :=
  {| todos := todos s; loading := loading s; error := error s; showForm := b;
     editingTodo := editingTodo s; mounted := mounted s |}.
Definition setEditingTodo (t : option todo) (s : app) : app :=
  {| todos := todos s; loading := loading s; error := error s; showForm := showForm s;
     editingTodo := t; mounted := mounted s |}.

Definition mount : app :=
  {| todos := []; loading := true; error := None; showForm := false;
     editingTodo := None; mounted := true |}.

(** The cleanup of the effect: [mounted = false], "avoid state updates
    after unmount". *)
Definition unmount (s : app) : app :=
  {| todos := todos s; loading := loading s; error := error s; showForm := showForm s;
     editingTodo := editingTodo s; mounted := false |}.

Definition settle (outcome : settled (list todo)) (s : app) : app :=
  let s :=
    match outcome with
    | Services.Fulfilled data => if mounted s then setTodos data s else s
    | Services.Rejected err =>
        if mounted s then setError (Some (Services.message_or_text err)) s else s
    end in
  if mounted s then setLoading false s else s.

(** [todos.map(t => t.id === newTodo.id ? newTodo : t)] *)
Definition replace_by_id (newTodo : todo) (l : list todo) : list todo :=
  map (fun t => if strict_eq (Todo.id t) (Todo.id newTodo) then newTodo else t) l.

(** The [onSubmitSuccess] passed to the form. *)
Definition onSubmitSuccess (newTodo : todo) (s : app) : app :=
  let s :=
    match editingTodo s with
    | Some _ => setTodos (replace_by_id newTodo (todos s)) s
    | None => setTodos (newTodo :: todos s) s
    end in
  setEditingTodo None (setShowForm false s).

(** The [onCancel] passed to the form. *)
Definition onCancel (s : app) : app := setEditingTodo None (setShowForm false s).

(** The "+ Add New Todo" button and the "Edit" button of a row. *)
Definition clickAdd (s : app) : app := setShowForm true (setEditingTodo None s).
Definition clickEdit (t : todo) (s : app) : app :=
  setShowForm true (setEditingTodo (Some t) s).
End App.

(** ** A small engine and the data used in the examples *)

Module Sample.
Import Js.
Import Todo (todo).

Fixpoint digits (acc : Z) (s : string) : option Z :=
  match s with
  | EmptyString => Some acc
  | String c s' =>
      match Ascii.is_nat c with
      | Some d => digits (10 * acc + Z.of_nat d) s'
      | None => None
      end
  end.

(** An engine that reads and writes the decimal integers, which is all the
    examples below contain. *)
Definition engine : JsEngine :=
  {| StringToNumber s :=
       match digits 0 s with
       | Some z => Fin (inject_Z z)
       | None => NaN
       end;
     NumberToString n :=
       match n with
       | NaN => "NaN"
       | Inf true => "-Infinity"
       | Inf false => "Infinity"
       | Fin q => pretty (Qnum q / Z.pos (Qden q))
       end |}.

Definition buyMilk : todo :=
  {| Todo.id := JUndefined; Todo.title := JStr "Buy milk";
     Todo.completed := JBool false; Todo.userId := num 1 |}.

Definition created : todo :=
  {| Todo.id := num 201; Todo.title := JStr "Buy milk";
     Todo.completed := JBool false; Todo.userId := num 1 |}.

Definition first : todo :=
  {| Todo.id := num 1; Todo.title := JStr "delectus aut autem";
     Todo.completed := JBool false; Todo.userId := num 1 |}.

Definition second : todo :=
  {| Todo.id := num 2; Todo.title := JStr "quis ut nam facilis";
     Todo.completed := JBool false; Todo.userId := num 1 |}.

Definition first_done : todo :=
  {| Todo.id := num 1; Todo.title := JStr "delectus aut autem";
     Todo.completed := JBool true; Todo.userId := num 1 |}.

(** A store that echoes the payload of a create under the identifier 201,
    that of an update under its own, and knows no other resource. *)
Definition echo (r : Services.request) : Services.reply todo :=
  match r with
  | Services.Post _ p => Services.Response (Todo.set "id" (num 201) p)
  | Services.Put _ p => Services.Response p
  | Services.Get _ =>
      Services.Failure
        {| Services.response :=
             Some (num 404, {| Services.body_message := JUndefined;
                               Services.body_json := "{}" |});
           Services.request_sent := true;
           Services.axios_message := "Request failed with status code 404" |}
  end.

(** The failure of a request that never got an answer. *)
Definition networkError : Services.axios_error :=
  {| Services.response := None; Services.request_sent := true;
     Services.axios_message := "Network Error" |}.

(** The props of the add form, with both callbacks passed. *)
Definition addProps : TodoForm.props :=
  {| TodoForm.initialData := None; TodoForm.onSubmitSuccess := true;
     TodoForm.onCancel := true |}.

(** The add form with "Buy milk" typed in. *)
Definition typed : TodoForm.form :=
  TodoForm.run (E := engine) (TodoForm.mount addProps)
    [TodoForm.Change "title" (JStr "Buy milk")].

(** The same form once submitted: the request is under way. *)
Definition submitted : TodoForm.form := TodoForm.step (E := engine) typed TodoForm.Submit.

(** [App] once the list [first; second] is loaded ... *)
Definition loaded : App.app :=
  App.settle (Services.Fulfilled [first; second]) App.mount.

(** ... then after one todo has been added through the form (the store
    answered with the identifier 201) ... *)
Definition added : App.app := App.onSubmitSuccess created (App.clickAdd loaded).

(** ... and with the Edit button of the first row clicked. *)
Definition editing : App.app := App.clickEdit first loaded.
End Sample.

(** ** The vocabulary of the specification *)

Module Spec.
Import Js.
Import Todo (todo).

(** A title that is "empty or whitespace": a value that [!title] rejects
    (absent, null, the empty string, ...) or a string of white space. *)
Definition empty_or_whitespace (title : jsval) : bool :=
  negb (truthy title) ||
  match title with
  | JStr s => all_white_space s
  | _ => false
  end.

(** The two guard failures of the data access layer (InvalidArgument). *)
Definition TitleRequired : Services.js_error := Services.Error "Todo title is required".
Definition IdRequired : Services.js_error := Services.Error "Todo id is required".

(** A title the schema must reject: missing, or a string shorter than 3
    or longer than 100. *)
Definition title_violation (title : jsval) : Prop :=
  nullish title = true \/
  exists s, title = JStr s /\ (Yup.length_of s < 3 \/ 100 < Yup.length_of s).

(** A user id the schema must reject: missing, not convertible to a
    number, or a number outside [1, 10]. *)
Definition userId_violation {E : JsEngine} (userId : jsval) : Prop :=
  nullish userId = true \/
  Yup.cast TodoForm.userId_schema userId = JNum NaN \/
  exists n, Yup.cast TodoForm.userId_schema userId = JNum n /\
            (number_le (Fin 1) n = false \/ number_le n (Fin 10) = false).


(** The entries of [l] at which [x] sits. *)
Definition occurrences (x : todo) (l : list todo) : nat :=
  count_occ Todo.todo_eq_dec l x.

(** What is claimed of a successful create, at a state of [App] and a response:
    the new todo is prepended, the list is one longer, and the new entry
    occurs in it exactly once. *)
Definition prepended_once (newTodo : todo) (s : App.app) : Prop :=
  let l' := App.todos (App.onSubmitSuccess newTodo s) in
  l' = newTodo :: App.todos s /\
  length l' = S (length (App.todos s)) /\
  occurrences newTodo l' = 1%nat.


(** While a form is submitting, the call of its latest submission is in
    flight. *)
Definition consistent (f : TodoForm.form) : Prop :=
  TodoForm.isSubmitting f = true -> is_Some (TodoForm.awaiting f).
End Spec.

(** ** The form without a schema: [components/TodoFormWithoutYup.js] *)

Module TodoFormWithoutYup.
Import Js.
Import Todo (todo).
Import Services (request, reply, settled, js_error).
Import TodoForm (form, call, AddTodo, UpdateTodo, notice, SubmitSuccess).

(** How a call of [onSubmit] ends up to its [await]: it returned or was
    suspended with the form in state [f], or an error escaped it. *)
Inductive outcome :=
| Completed (f : form)
| Uncaught (e : js_error) (f : form).

Definition tooShort : string := "Title is required and must be at least 3 characters.".

Section WithEngine.
Context {E : JsEngine}.

(** [Number(v)] *)
Definition Number (v : jsval) : number :=
  match v with
  | JUndefined => NaN
  | JNull => Fin 0
  | JBool true => Fin 1
  | JBool false => Fin 0
  | JNum n => n
  | JStr s => StringToNumber s
  end.

(** [{ ...data, userId: Number(data.userId) }] *)
Definition payload_of (data : todo) : todo :=
  Todo.set_userId (JNum (Number (Todo.userId data))) data.

(** [onSubmit] after its [await]: as in [TodoForm], with another text when
    the error has no message. *)
Definition onSubmit_resume (result : settled todo) (f : form) : form :=
  TodoForm.setIsSubmitting false
    match result with
    | Services.Fulfilled result =>
        let f := TodoForm.reset f in
        if TodoForm.onSubmitSuccess (TodoForm.given f)
        then TodoForm.notify (SubmitSuccess result) f else f
    | Services.Rejected err =>
        TodoForm.setSubmitError
          (Some (Services.or_text (Services.message err) "Failed to save todo")) f
    end.

(** [onSubmit(data)] up to its [await].  The manual check of the title
    stands before the [try] block: calling [trim] on a title that is not a
    string throws out of [onSubmit]. *)
Definition onSubmit (data : todo) (f : form) : outcome :=
  let f := TodoForm.set_unrendered true
             (TodoForm.setSubmitError None (TodoForm.setIsSubmitting true f)) in
  let payload := payload_of data in
  let refuse :=
    Completed (TodoForm.setIsSubmitting false (TodoForm.setSubmitError (Some tooShort) f)) in
  if negb (truthy (Todo.title payload)) then refuse
  else match Todo.title payload with
       | JStr s =>
           if Yup.length_of (trim s) <? 3 then refuse
           else
             let c := if TodoForm.isEditMode (TodoForm.given f)
                      then UpdateTodo (TodoForm.initialData_id (TodoForm.given f)) payload
                      else AddTodo payload in
             let f := TodoForm.record_call c f in
             match TodoForm.call_start c with
             | inl error => Completed (onSubmit_resume (Services.Rejected error) f)
             | inr req =>
                 Completed (TodoForm.suspend c (TodoForm.record_request req f))
             end
       | _ => Uncaught (Services.TypeError "payload.title.trim is not a function") f
       end.

End WithEngine.
End TodoFormWithoutYup.

(** ** What the pages render and start *)

Module Views.
Import Js.
Import Todo (todo).
Import Services (request, js_error).

(** The three things a page returns: the loading line, the error line, or
    its content. *)
Inductive screen (A : Type) :=
| Loading
| ErrorLine (text : string)
| Content (a : A).
Arguments Loading {A}.
Arguments ErrorLine {A} text.
Arguments Content {A} a.

(** [if (loading) ...; if (error) ...; return ...] with [error] null or a
    string, the empty string being falsy. *)
Definition render {A} (loading : bool) (error : option string) (content : A) : screen A :=
  if loading then Loading
  else match error with
       | Some text => if String.eqb text "" then Content content else ErrorLine text
       | None => Content content
       end.

(** [TodosListPage]: the rows of the table. *)
Definition TodosListPage_render (s : TodosListPage.page) : screen (list todo) :=
  render (TodosListPage.loading s) (TodosListPage.error s) (TodosListPage.todos s).

(** The props [TodoFormPage] gives the form:
    [<TodoForm initialData={initialData} onSuccess={handleFormSubmit} />].
    The form reads [onSubmitSuccess] and [onCancel]; neither is passed. *)
Definition TodoFormPage_props (s : TodoFormPage.page) : TodoForm.props :=
  {| TodoForm.initialData := TodoFormPage.initialData s;
     TodoForm.onSubmitSuccess := false;
     TodoForm.onCancel := false |}.

(** [TodoFormPage]: the form with its props. *)
Definition TodoFormPage_render (s : TodoFormPage.page) : screen TodoForm.props :=
  render (TodoFormPage.loading s) (TodoFormPage.error s) (TodoFormPage_props s).

Section WithEngine.
Context {E : JsEngine}.

(** The effect of [TodoFormPage] up to the [await] inside [getTodoById]:
    nothing in add mode. *)
Definition TodoFormPage_effect (id : jsval) : option (js_error + request) :=
  if TodoFormPage.isEditMode id then Some (Services.getTodoById_start id) else None.

(** [TodosListPage] from mount to the settling of [getTodos()]. *)
Definition TodosListPage_load (store : request -> Services.reply (list todo))
  : TodosListPage.page :=
  TodosListPage.settle (Services.getTodos store).2 TodosListPage.mount.

(** [TodoFormPage] on the route parameter [id], from mount to the settling
    of [getTodoById(id)] in edit mode. *)
Definition TodoFormPage_load (store : request -> Services.reply todo) (id : jsval)
  : TodoFormPage.page :=
  if TodoFormPage.isEditMode id
  then TodoFormPage.settle (Services.getTodoById store id).2 (TodoFormPage.mount id)
  else TodoFormPage.mount id.

End WithEngine.
End Views.

(** ** The events of [App] *)

Module AppEvents.
Import Js.
Import Todo (todo).
Import App.

(** [App] as it is now, and for each submit of the form that is in flight
    the render of [App] whose [onSubmitSuccess] that submit holds: the
    callback reads [todos] and [editingTodo] of the render it was created
    in. *)
Record session := {
  now : app;
  captured : list app
}.

Inductive event :=
| Settle (outcome : Services.settled (list todo))   (* [getTodos()] settles *)
| ClickAdd                                          (* "+ Add New Todo" *)
| ClickEdit (row : nat)                             (* "Edit" of a row *)
| FormSubmit                                        (* the form starts a service call *)
| FormSuccess (i : nat) (newTodo : todo)            (* the store answers the i-th of them *)
| FormFailure (i : nat)                             (* ... or it fails *)
| FormCancel                                        (* the form calls [onCancel] *)
| Unmount.

(** [!loading && !error]: the table and its Edit buttons are rendered. *)
Definition table_shown (s : app) : bool :=
  negb (loading s) &&
  match error s with
  | Some text => String.eqb text ""
  | None => true
  end.

(** The props [App] gives the form. *)
Definition form_props (s : app) : TodoForm.props :=
  {| TodoForm.initialData := editingTodo s;
     TodoForm.onSubmitSuccess := true;
     TodoForm.onCancel := true |}.

Definition start : session := {| now := mount; captured := [] |}.

Definition with_now (s : app) (st : session) : session :=
  {| now := s; captured := captured st |}.

(** The three setters of [onSubmitSuccess], called with the list computed
    from the captured render [seen]. *)
Definition late_onSubmitSuccess (newTodo : todo) (seen : app) (s : app) : app :=
  setEditingTodo None (setShowForm false (setTodos (todos (onSubmitSuccess newTodo seen)) s)).

(** One event.  The load settles once, and [loading] is true until it has;
    the Add button is rendered when the form is not, the form when
    [showForm] is true, the Edit buttons with the table.  The session does
    not follow what goes on inside the form: it lets the form submit and
    cancel whenever it is shown, which is every run the form can make (it
    submits again until it is rendered as submitting) and more.  A call
    that is in flight stays so when the form is closed.  Once [App] is
    unmounted nothing is rendered and React discards the calls of its
    setters. *)
Definition step (st : session) (e : event) : session :=
  let s := now st in
  if negb (mounted s) then st else
  match e with
  | Settle outcome => if loading s then with_now (settle outcome s) st else st
  | ClickAdd => if showForm s then st else with_now (clickAdd s) st
  | ClickEdit row =>
      if table_shown s
      then match todos s !! row with
           | Some t => with_now (clickEdit t s) st
           | None => st
           end
      else st
  | FormSubmit =>
      if showForm s then {| now := s; captured := captured st ++ [s] |} else st
  | FormSuccess i newTodo =>
      match captured st !! i with
      | Some seen =>
          {| now := late_onSubmitSuccess newTodo seen s;
             captured := delete i (captured st) |}
      | None => st
      end
  | FormFailure i => {| now := s; captured := delete i (captured st) |}
  | FormCancel => if showForm s then with_now (onCancel s) st else st
  | Unmount => with_now (unmount s) st
  end.

Definition run (st : session) (es : list event) : session := foldl step st es.

Inductive reachable : session -> Prop :=
| reachable_start : reachable start
| reachable_step st e : reachable st -> reachable (step st e).
End AppEvents.

(** ** More vocabulary *)

Module Terms.
Import Js.
Import Todo (todo).

(** A draft the schema has nothing to say against: after the casts the
    title is a string of 3 to 100 code units, [completed] a boolean and
    the user id a number from 1 to 10. *)
Definition accepted {E : JsEngine} (draft : todo) : Prop :=
  (exists s, Yup.cast TodoForm.title_schema (Todo.title draft) = JStr s /\
             3 <= Yup.length_of s <= 100) /\
  (exists b, Yup.cast TodoForm.completed_schema (Todo.completed draft) = JBool b) /\
  (exists n, Yup.cast TodoForm.userId_schema (Todo.userId draft) = JNum n /\
             number_le (Fin 1) n = true /\ number_le n (Fin 10) = true).

(** A todo whose fields have the types and bounds of the schema as they
    stand, without any cast. *)
Definition well_typed (t : todo) : Prop :=
  exists s b n,
    Todo.title t = JStr s /\ 3 <= Yup.length_of s <= 100 /\
    Todo.completed t = JBool b /\
    Todo.userId t = JNum n /\ number_le (Fin 1) n = true /\ number_le n (Fin 10) = true.

(** The message the schema gives a title, by cases. *)
Definition title_message {E : JsEngine} (title : jsval) : option Yup.message :=
  if nullish title then Some (Yup.Text "Title is required")
  else match Yup.cast TodoForm.title_schema title with
       | JStr s =>
           if Yup.length_of s <? 3 then Some (Yup.Text "Title must be at least 3 characters")
           else if 100 <? Yup.length_of s
                then Some (Yup.Text "Title must not exceed 100 characters")
                else None
       | _ => None
       end.

(** The message the schema gives a user id, by cases. *)
Definition userId_message {E : JsEngine} (userId : jsval) : option Yup.message :=
  if nullish userId then Some (Yup.Text "User ID is required")
  else match Yup.cast TodoForm.userId_schema userId with
       | JNum NaN => Some (Yup.NotType Yup.TNumber (JNum NaN))
       | JNum n =>
           if negb (number_le (Fin 1) n) then Some (Yup.Text "User ID must be at least 1")
           else if negb (number_le n (Fin 10))
                then Some (Yup.Text "User ID must not exceed 10")
                else None
       | _ => None
       end.

(** The successes among the callbacks invoked. *)
Definition is_success (n : TodoForm.notice) : bool :=
  match n with
  | TodoForm.SubmitSuccess _ => true
  | TodoForm.Cancelled => false
  end.

Definition successes (l : list TodoForm.notice) : nat :=
  length (List.filter is_success l).

(** A request the form may send: a POST of a todo without id to [/todos],
    or a PUT of a todo to the path of its truthy id; the todo well typed and
    its title not blank. *)
Definition sendable {E : JsEngine} (req : Services.request) : Prop :=
  match req with
  | Services.Get _ => False
  | Services.Post url payload =>
      url = "/todos" /\ Todo.id payload = JUndefined /\
      well_typed payload /\ Spec.empty_or_whitespace (Todo.title payload) = false
  | Services.Put url payload =>
      url = "/todos/" +:+ to_string (Todo.id payload) /\ truthy (Todo.id payload) = true /\
      well_typed payload /\ Spec.empty_or_whitespace (Todo.title payload) = false
  end.

(** The call [onSubmit] makes for the data [data]. *)
Definition call_for (p : TodoForm.props) (data : todo) : TodoForm.call :=
  if TodoForm.isEditMode p
  then TodoForm.UpdateTodo (TodoForm.initialData_id p) data
  else TodoForm.AddTodo data.

(** A call whose data is well typed, and whose id is truthy for an update. *)
Definition sound (c : TodoForm.call) : Prop :=
  match c with
  | TodoForm.AddTodo data => well_typed data
  | TodoForm.UpdateTodo id data => well_typed data /\ truthy id = true
  end.

(** The number of requests of a form that wait for their answer. *)
Definition pending (f : TodoForm.form) : nat :=
  (length (TodoForm.earlier f) +
   match TodoForm.awaiting f with
   | Some _ => 1
   | None => 0
   end)%nat.

(** An edit of an input. *)
Definition is_change (e : TodoForm.event) : Prop :=
  exists key v, e = TodoForm.Change key v.

(** What holds of every render of [App], the present one and those that the
    submits in flight have captured: a todo is being edited only with the
    form shown, the load settled and the todo among the rows. *)
Definition editing_a_row (s : App.app) : Prop :=
  forall t, App.editingTodo s = Some t ->
    App.showForm s = true /\ App.loading s = false /\ t ∈ App.todos s.

Definition app_invariant (st : AppEvents.session) : Prop :=
  editing_a_row (AppEvents.now st) /\
  Forall editing_a_row (AppEvents.captured st).
End Terms.

(** ** More sample data *)

Module Cases.
Import Js.
Import Todo (todo).

(** The add form with three spaces typed in as title. *)
Definition blank : TodoForm.form :=
  TodoForm.run (E := Sample.engine) (TodoForm.mount Sample.addProps)
    [TodoForm.Change "title" (JStr "   ")].

(** The todo with three spaces as title. *)
Definition spaces : todo :=
  {| Todo.id := JUndefined; Todo.title := JStr "   ";
     Todo.completed := JBool false; Todo.userId := num 1 |}.

(** A todo of the store whose [id] is [0]. *)
Definition zeroth : todo :=
  {| Todo.id := num 0; Todo.title := JStr "delectus aut autem";
     Todo.completed := JBool false; Todo.userId := num 1 |}.
End Cases.

(** * [TodoReducerExample] of [src/hooks/04_useReducer.js] *)

Module TodoReducerExample.
Import Js.

Record item := {
  id : jsval;
  text : jsval;
  completed : jsval
}.

Record state := {
  todos : list item;
  filter : jsval
}.

(** The actions by their [type]; [ADD_TODO] comes with the reading of
    [Date.now()] the reducer makes for it, [Unknown] is any other type. *)
Inductive action :=
| ADD_TODO (payload : jsval) (now : Z)
| REMOVE_TODO (payload : jsval)
| TOGGLE_TODO (payload : jsval)
| SET_FILTER (payload : jsval)
| Unknown.

Definition todoReducer (s : state) (a : action) : state :=
  match a with
  | ADD_TODO payload now =>
      {| todos := todos s ++ [{| id := num now; text := payload; completed := JBool false |}];
         filter := filter s |}
  | REMOVE_TODO payload =>
      {| todos := List.filter (fun todo => negb (strict_eq (id todo) payload)) (todos s);
         filter := filter s |}
  | TOGGLE_TODO payload =>
      {| todos :=
           map (fun todo =>
                  if strict_eq (id todo) payload
                  then {| id := id todo; text := text todo;
                          completed := JBool (negb (truthy (completed todo))) |}
                  else todo)
               (todos s);
         filter := filter s |}
  | SET_FILTER payload => {| todos := todos s; filter := payload |}
  | Unknown => s
  end.

Definition initialState : state :=
  {| todos :=
       [ {| id := num 1; text := JStr "Learn React"; completed := JBool true |};
         {| id := num 2; text := JStr "Learn useReducer"; completed := JBool false |} ];
     filter := JStr "all" |}.

(** The rows that are rendered. *)
Definition filteredTodos (s : state) : list item :=
  List.filter
    (fun todo =>
       if strict_eq (filter s) (JStr "completed") then truthy (completed todo)
       else if strict_eq (filter s) (JStr "active") then negb (truthy (completed todo))
       else true)
    (todos s).

(** [handleAddTodo] on the text typed: [if (input.trim()) dispatch(...)]. *)
Definition handleAddTodo (input : string) (now : Z) (s : state) : state :=
  if truthy (JStr (trim input))
  then todoReducer s (ADD_TODO (JStr input) now)
  else s.

(** The states the reducer gets to from [initialState]. *)
Inductive reachable : state -> Prop :=
| reachable_initial : reachable initialState
| reachable_dispatch s a : reachable s -> reachable (todoReducer s a).
End TodoReducerExample.

(** * Properties *)

(** ** Strings and values *)

Module JsFacts.
Import Js.

Lemma rev_app_empty s acc : String.rev_app s acc = "" -> s = "" /\ acc = "".
Proof.
  revert acc. induction s as [|c s IH]; intros acc Hr; simpl in Hr.
  - by split.
  - apply IH in Hr as [_ Hacc]. discriminate Hacc.
Qed.

Lemma rev_empty s : String.rev s = "" -> s = "".
Proof. intros Hr. by apply rev_app_empty in Hr as [-> _]. Qed.

Lemma all_white_space_rev_app s acc :
  all_white_space (String.rev_app s acc) = all_white_space s && all_white_space acc.
Proof.
  revert acc. induction s as [|c s IH]; intros acc; simpl; [done|].
  rewrite IH. simpl. by destruct (is_white_space c), (all_white_space s).
Qed.

Lemma all_white_space_rev s : all_white_space (String.rev s) = all_white_space s.
Proof. unfold String.rev. rewrite all_white_space_rev_app. simpl. by rewrite andb_true_r. Qed.

Lemma trim_start_empty s : trim_start s = "" <-> all_white_space s = true.
Proof.
  induction s as [|c s IH]; simpl; [done|].
  destruct (is_white_space c); simpl; [done|]. split; discriminate.
Qed.

(** What [trim_start] leaves is white space only if nothing is left. *)
Lemma trim_start_all_white_space s :
  all_white_space (trim_start s) = all_white_space s.
Proof.
  induction s as [|c s IH]; simpl; [done|].
  destruct (is_white_space c) eqn:Hc; simpl; [done|]. by rewrite Hc.
Qed.

(** [s.trim() === ''] exactly when [s] consists of white space. *)
Lemma trim_empty s : trim s = "" <-> all_white_space s = true.
Proof.
  unfold trim. split.
  - intros Hr%rev_empty%trim_start_empty.
    by rewrite all_white_space_rev, trim_start_all_white_space in Hr.
  - intros Hs.
    assert (trim_start s = "") as -> by by apply trim_start_empty.
    done.
Qed.

Lemma trim_eqb s : String.eqb (trim s) "" = all_white_space s.
Proof.
  destruct (all_white_space s) eqn:Hs.
  - apply String.eqb_eq. by apply trim_empty.
  - apply String.eqb_neq. intros Ht%trim_empty. congruence.
Qed.



Lemma or_falsy a b : truthy a = false -> or a b = b.
Proof. unfold or. by intros ->. Qed.

Lemma or_truthy a b : truthy a = true -> or a b = a.
Proof. unfold or. by intros ->. Qed.
End JsFacts.

(** ** Data access layer *)

Module ServicesFacts.
Import Js Spec JsFacts.
Import Todo (todo).
Import Services.

Section WithEngine.
Context {E : JsEngine}.

(** The guard on the title, by cases on the value. *)
Lemma title_guard_cases v :
  title_guard v =
    if empty_or_whitespace v then Some TitleRequired
    else match v with
         | JStr _ => None
         | _ => Some (TypeError "todoData.title.trim is not a function")
         end.
Proof.
  unfold title_guard, empty_or_whitespace.
  destruct (truthy v) eqn:Hv; simpl; [|done].
  destruct v; try done. by rewrite trim_eqb.
Qed.

Lemma title_guard_required v :
  title_guard v = Some TitleRequired <-> empty_or_whitespace v = true.
Proof.
  rewrite title_guard_cases.
  destruct (empty_or_whitespace v); [done|].
  split; [|done]. by destruct v.
Qed.

Lemma title_guard_not_id v : title_guard v <> Some IdRequired.
Proof.
  rewrite title_guard_cases.
  destruct (empty_or_whitespace v); [done|]. by destruct v.
Qed.

Lemma or_text_nonempty text fallback : fallback <> "" -> or_text text fallback <> "".
Proof.
  intros Hf. unfold or_text.
  destruct (String.eqb text "") eqn:Ht; [done|]. by apply String.eqb_neq.
Qed.

(** No message of the [catch] block is empty. *)
Lemma normalize_message unknown e :
  unknown <> "" -> message (normalize unknown e) <> "".
Proof.
  intros Hu. unfold normalize.
  destruct (response e) as [[status data]|]; simpl; [done|].
  destruct (request_sent e); simpl; [done|].
  by apply or_text_nonempty.
Qed.

(** C4.  [addTodo] fails with the title guard's error, before any request,
    exactly when the title is empty or whitespace; [updateTodo] fails with
    the id guard's error, before any request, exactly when the id is
    missing, and with the title guard's error exactly when the id is there
    and the title is empty or whitespace.  A title that is a string with
    something in it is delegated: one request goes to the store, a POST to
    [/todos] or a PUT to [/todos/<id>], whose payload carries the title,
    [completed] or [false] when that is falsy, [userId] or [1] when that is
    falsy (and the id, for an update), and the call settles as the store
    answers.  The one case left, a truthy title that is no string, fails
    with the TypeError of [trim], before any request. *)
Theorem guards_then_delegate
    (store : request -> reply todo) (id : jsval) (todoData : todo) :
  let title := Todo.title todoData in
  let sent i :=
    {| Todo.id := i;
       Todo.title := title;
       Todo.completed :=
         if truthy (Todo.completed todoData) then Todo.completed todoData else JBool false;
       Todo.userId :=
         if truthy (Todo.userId todoData) then Todo.userId todoData else num 1 |} in
  let post := Post "/todos" (sent JUndefined) in
  let put := Put ("/todos/" +:+ to_string id) (sent id) in
  let answered unknown req :=
    match store req with
    | Response data => Fulfilled data
    | Failure e => Rejected (normalize unknown e)
    end in
  let notString := TypeError "todoData.title.trim is not a function" in
  (addTodo store todoData = ([], Rejected TitleRequired)
     <-> empty_or_whitespace title = true) /\
  (forall s, title = JStr s -> empty_or_whitespace title = false ->
     addTodo store todoData = ([post], answered "Unknown error creating todo" post)) /\
  (empty_or_whitespace title = false -> (forall s, title <> JStr s) ->
     addTodo store todoData = ([], Rejected notString)) /\
  (updateTodo store id todoData = ([], Rejected IdRequired) <-> nullish id = true) /\
  (updateTodo store id todoData = ([], Rejected TitleRequired)
     <-> nullish id = false /\ empty_or_whitespace title = true) /\
  (updateTodo store id todoData = ([], Rejected IdRequired) \/
   updateTodo store id todoData = ([], Rejected TitleRequired)
     <-> nullish id = true \/ empty_or_whitespace title = true) /\
  (forall s, nullish id = false -> title = JStr s -> empty_or_whitespace title = false ->
     updateTodo store id todoData = ([put], answered "Unknown error updating todo" put)) /\
  (nullish id = false -> empty_or_whitespace title = false -> (forall s, title <> JStr s) ->
     updateTodo store id todoData = ([], Rejected notString)).
Proof.
  intros title sent post put answered notString.
  assert (addTodo_payload todoData = sent JUndefined /\
          updateTodo_payload id todoData = sent id) as [Hadd Hupd].
  { unfold addTodo_payload, updateTodo_payload, sent, or.
    by destruct (truthy (Todo.completed todoData)), (truthy (Todo.userId todoData)). }
  assert (addTodo store todoData =
            if empty_or_whitespace title then ([], Rejected TitleRequired)
            else match title with
                 | JStr _ => ([post], answered "Unknown error creating todo" post)
                 | _ => ([], Rejected notString)
                 end) as Ha.
  { unfold addTodo, addTodo_start, addTodo_settle, finish.
    rewrite Hadd, title_guard_cases. fold title post.
    destruct (empty_or_whitespace title); [done|]. by destruct title. }
  assert (updateTodo store id todoData =
            if nullish id then ([], Rejected IdRequired)
            else if empty_or_whitespace title then ([], Rejected TitleRequired)
            else match title with
                 | JStr _ => ([put], answered "Unknown error updating todo" put)
                 | _ => ([], Rejected notString)
                 end) as Hu.
  { unfold updateTodo, updateTodo_start, updateTodo_settle, finish.
    rewrite Hupd, title_guard_cases. fold title put.
    destruct (nullish id); [done|].
    destruct (empty_or_whitespace title); [done|]. by destruct title. }
  rewrite Ha, Hu. clear Ha Hu.
  unfold TitleRequired, IdRequired, notString.
  destruct (empty_or_whitespace title), (nullish id), title as [| |b|n|s];
    repeat match goal with
           | |- _ /\ _ => split
           | |- _ <-> _ => split
           end;
    try done; try (intros; discriminate);
    try (intros [?|?]; discriminate);
    try (intros [? ?]; discriminate);
    try (by left); try (by right);
    try (intros; by left); try (intros; by right);
    try (by intros ? ? Hno; destruct (Hno s));
    try (by intros ? Hno; destruct (Hno s));
    try (by intros Hno; destruct (Hno s)).
Qed.

(** C10.  Every request that [addTodo] or [updateTodo] sends carries
    [userId = 1] when the caller's [userId] is falsy (0, the empty
    string, null, absent, ...) and [completed = false] when the caller's
    [completed] is falsy: no falsy value reaches the store. *)
Theorem falsy_fields_are_defaulted
    (store : request -> reply todo) (id : jsval) (todoData : todo) (req : request) :
  req ∈ (addTodo store todoData).1 \/ req ∈ (updateTodo store id todoData).1 ->
  exists url payload,
    (req = Post url payload \/ req = Put url payload) /\
    (truthy (Todo.userId todoData) = false -> Todo.userId payload = num 1) /\
    (truthy (Todo.completed todoData) = false -> Todo.completed payload = JBool false) /\
    truthy (Todo.userId payload) = true /\
    (truthy (Todo.completed payload) = false -> Todo.completed payload = JBool false).
Proof.
  assert (forall v, truthy (or v (num 1)) = true) as Huser.
  { intros v. unfold or. by destruct (truthy v) eqn:Hv. }
  assert (forall v, truthy (or v (JBool false)) = false ->
                    or v (JBool false) = JBool false) as Hdone.
  { intros v. unfold or. destruct (truthy v) eqn:Hv; [congruence|done]. }
  unfold addTodo, updateTodo, addTodo_start, updateTodo_start.
  intros [Hin|Hin].
  - destruct (title_guard _); simpl in Hin; [by apply elem_of_nil in Hin|].
    apply list_elem_of_singleton in Hin as ->.
    eexists _, _. split; [by left|]. simpl.
    repeat split; auto using or_falsy.
  - destruct (nullish id); simpl in Hin; [by apply elem_of_nil in Hin|].
    destruct (title_guard _); simpl in Hin; [by apply elem_of_nil in Hin|].
    apply list_elem_of_singleton in Hin as ->.
    eexists _, _. split; [by right|]. simpl.
    repeat split; auto using or_falsy.
Qed.

End WithEngine.

(** The instance of [guards_then_delegate] for a draft sent through the
    echoing store. *)
Lemma guards_then_delegate_witness :
  addTodo (E := Sample.engine) Sample.echo Sample.buyMilk =
    ([Post "/todos" Sample.buyMilk], Fulfilled Sample.created) /\
  updateTodo (E := Sample.engine) Sample.echo (num 1) Sample.first_done =
    ([Put "/todos/1" Sample.first_done], Fulfilled Sample.first_done).
Proof.
  destruct (guards_then_delegate (E := Sample.engine) Sample.echo (num 1) Sample.buyMilk)
    as (_ & Ha & _).
  destruct (guards_then_delegate (E := Sample.engine) Sample.echo (num 1) Sample.first_done)
    as (_ & _ & _ & _ & _ & _ & Hu & _).
  split; [exact (Ha "Buy milk" eq_refl eq_refl)|].
  exact (Hu "delectus aut autem" eq_refl eq_refl eq_refl).
Defined.

(** The instance of [falsy_fields_are_defaulted] for a caller passing
    [userId: 0] and [completed: null]. *)
Lemma falsy_fields_are_defaulted_witness :
  let sent := {| Todo.id := JUndefined; Todo.title := JStr "Buy milk";
                 Todo.completed := JNull; Todo.userId := num 0 |} in
  let req := Post "/todos" Sample.buyMilk in
  req ∈ (addTodo (E := Sample.engine) Sample.echo sent).1 /\
  exists url payload,
    (req = Post url payload \/ req = Put url payload) /\
    (truthy (Todo.userId sent) = false -> Todo.userId payload = num 1) /\
    (truthy (Todo.completed sent) = false -> Todo.completed payload = JBool false) /\
    truthy (Todo.userId payload) = true /\
    (truthy (Todo.completed payload) = false -> Todo.completed payload = JBool false).
Proof.
  intros sent req.
  assert (req ∈ (addTodo (E := Sample.engine) Sample.echo sent).1) as Hin
    by (apply list_elem_of_singleton; reflexivity).
  split; [exact Hin|].
  exact (falsy_fields_are_defaulted (E := Sample.engine) Sample.echo JUndefined sent req
           (or_introl Hin)).
Defined.
End ServicesFacts.

(** ** Validation schema *)

Module SchemaFacts.
Import Js Spec.
Import Todo (todo).
Import TodoForm.

Section WithEngine.
Context {E : JsEngine}.

(** The mapping [validate] returns, path by path. *)
Lemma validate_lookup draft :
  validate draft !! "title" = Yup.field_error title_schema (Todo.title draft) /\
  validate draft !! "completed" = Yup.field_error completed_schema (Todo.completed draft) /\
  validate draft !! "userId" = Yup.field_error userId_schema (Todo.userId draft).
Proof.
  unfold validate, Yup.object_errors, todoValidationSchema.
  cbn [omap list_omap].
  change (Todo.get "title" draft) with (Todo.title draft).
  change (Todo.get "completed" draft) with (Todo.completed draft).
  change (Todo.get "userId" draft) with (Todo.userId draft).
  destruct (Yup.field_error title_schema _),
           (Yup.field_error completed_schema _),
           (Yup.field_error userId_schema _); done.
Qed.

Lemma validate_title draft :
  validate draft !! "title" = Yup.field_error title_schema (Todo.title draft).
Proof. apply validate_lookup. Qed.

Lemma validate_userId draft :
  validate draft !! "userId" = Yup.field_error userId_schema (Todo.userId draft).
Proof. apply validate_lookup. Qed.

(** A missing title fails the tests run first. *)
Lemma title_missing v :
  nullish v = true ->
  Yup.field_error title_schema v = Some (Yup.Text "Title is required").
Proof. by destruct v. Qed.

(** The messages of a title that is a string, in the order of the schema. *)
Lemma title_string s :
  Yup.field_errors title_schema (JStr s) =
    (if 3 <=? Yup.length_of s then [] else [Yup.Text "Title must be at least 3 characters"]) ++
    (if Yup.length_of s <=? 100 then [] else [Yup.Text "Title must not exceed 100 characters"]) ++
    (if Yup.length_of s =? 0 then [Yup.Text "Title is required"] else []).
Proof.
  unfold Yup.field_errors. cbn.
  unfold Yup.run_test. cbn.
  by destruct (3 <=? Yup.length_of s), (Yup.length_of s <=? 100), (Yup.length_of s =? 0).
Qed.

Lemma title_rejected v : title_violation v -> is_Some (Yup.field_error title_schema v).
Proof.
  intros [Hv|(s & -> & Hs)]; [rewrite title_missing; eauto|].
  unfold Yup.field_error. rewrite title_string.
  destruct (3 <=? Yup.length_of s) eqn:H3; [|by eexists].
  destruct (Yup.length_of s <=? 100) eqn:H100; [|by eexists].
  lia.
Qed.

(** A missing user id fails the tests run first. *)
Lemma userId_missing v :
  nullish v = true ->
  Yup.field_error userId_schema v = Some (Yup.Text "User ID is required").
Proof. by destruct v. Qed.

(** The value the number schema validates is absent or a number. *)
Lemma userId_cast v :
  Yup.cast userId_schema v = JUndefined \/ Yup.cast userId_schema v = JNull \/
  exists n, Yup.cast userId_schema v = JNum n.
Proof.
  destruct v as [| |b|n|s]; unfold Yup.cast, Yup.transform; cbn; eauto.
  destruct (String.eqb _ _); eauto.
Qed.

(** The messages of a user id that casts to a number. *)
Lemma userId_number v n :
  Yup.cast userId_schema v = JNum n ->
  Yup.field_errors userId_schema v =
    match n with
    | NaN => [Yup.NotType Yup.TNumber (JNum NaN)]
    | _ => (if number_le (Fin 1) n then [] else [Yup.Text "User ID must be at least 1"]) ++
           (if number_le n (Fin 10) then [] else [Yup.Text "User ID must not exceed 10"])
    end.
Proof.
  intros Hc. unfold Yup.field_errors. rewrite Hc.
  destruct n as [|neg|q]; cbn; [done| |].
  - by destruct neg.
  - unfold Yup.run_test. cbn.
    by destruct (Qle_bool _ q), (Qle_bool q _).
Qed.

Lemma userId_rejected v : userId_violation v -> is_Some (Yup.field_error userId_schema v).
Proof.
  intros [Hv|[Hnan|(n & Hn & Hout)]].
  - rewrite userId_missing; eauto.
  - unfold Yup.field_error. rewrite (userId_number _ _ Hnan). by eexists.
  - unfold Yup.field_error. rewrite (userId_number _ _ Hn).
    destruct n as [|neg|q]; [by eexists| |].
    + destruct Hout as [-> | ->]; [by eexists|].
      destruct (number_le _ _); by eexists.
    + destruct Hout as [-> | ->]; [by eexists|].
      destruct (number_le _ _); by eexists.
Qed.
End WithEngine.
End SchemaFacts.

(** ** Form state machine *)

Module FormFacts.
Import Js Spec SchemaFacts.
Import Todo (todo).
Import TodoForm.
Import Sample (addProps, typed, submitted).

Section WithEngine.
Context {E : JsEngine}.

(** Closes a goal that is the hypothesis [Hf] once the state is
    simplified and the flag equation [Hs] is used. *)
Local Ltac unchanged Hs Hf := cbn; rewrite ?Hs; exact Hf.

Lemma resume_settles outcome f :
  isSubmitting (onSubmit_resume outcome f) = false /\
  awaiting (onSubmit_resume outcome f) = awaiting f /\
  earlier (onSubmit_resume outcome f) = earlier f /\
  calls (onSubmit_resume outcome f) = calls f /\
  requests (onSubmit_resume outcome f) = requests f.
Proof.
  unfold onSubmit_resume.
  destruct outcome as [result|error]; cbn; [|done].
  by destruct (onSubmitSuccess (given f)).
Qed.

(** What [onSubmit] leaves behind: one more service call, and either a
    request under way or a failure already shown. *)
Lemma onSubmit_cases data f :
  let c := if isEditMode (given f)
           then UpdateTodo (initialData_id (given f)) data
           else AddTodo data in
  calls (onSubmit data f) = calls f ++ [c] /\
  ((exists req, call_start c = inr req /\
      awaiting (onSubmit data f) = Some c /\
      isSubmitting (onSubmit data f) = true /\
      requests (onSubmit data f) = requests f ++ [req]) \/
   (exists error, call_start c = inl error /\
      awaiting (onSubmit data f) = awaiting f /\
      isSubmitting (onSubmit data f) = false /\
      requests (onSubmit data f) = requests f)).
Proof.
  intros c. unfold onSubmit.
  cbn [given setSubmitError setIsSubmitting set_unrendered record_call].
  fold c. destruct (call_start c) as [error|req] eqn:Hc.
  - destruct (resume_settles (Services.Rejected error)
      (record_call c (set_unrendered true (setSubmitError None (setIsSubmitting true f)))))
      as (Hs & Ha & _ & Hcalls & Hreq).
    split; [by rewrite Hcalls|]. right. exists error. by rewrite Hs, Ha, Hreq.
  - split; [done|]. left. by exists req.
Qed.

(** A submission with a field error does nothing but show the errors. *)
Lemma handleSubmit_invalid f :
  validate (values f) <> ∅ -> handleSubmit f = set_isSubmitted true (resolve f).
Proof.
  intros Hne. unfold handleSubmit.
  destruct (decide (errors (resolve f) = ∅)) as [He|]; [|done].
  by destruct Hne.
Qed.

Lemma handleSubmit_valid f :
  validate (values f) = ∅ ->
  handleSubmit f = onSubmit (cast_values (values f)) (resolve f).
Proof.
  intros He. unfold handleSubmit.
  by destruct (decide (errors (resolve f) = ∅)).
Qed.

(** An edit neither makes a call nor touches a call in flight. *)
Lemma handleChange_keeps key v f :
  given (handleChange key v f) = given f /\
  isSubmitting (handleChange key v f) = isSubmitting f /\
  submitError (handleChange key v f) = submitError f /\
  awaiting (handleChange key v f) = awaiting f /\
  earlier (handleChange key v f) = earlier f /\
  calls (handleChange key v f) = calls f /\
  requests (handleChange key v f) = requests f /\
  notices (handleChange key v f) = notices f.
Proof. unfold handleChange. cbn. by destruct (isSubmitted f). Qed.

Lemma step_consistent f e : consistent f -> consistent (step f e).
Proof.
  unfold consistent. intros Hf.
  destruct e as [|key v| |r|i r|]; cbn [step].
  - destruct (disabled f); [exact Hf|].
    destruct (decide (validate (values f) = ∅)) as [He|Hne].
    + rewrite (handleSubmit_valid _ He).
      destruct (onSubmit_cases (cast_values (values f)) (resolve f))
        as [_ [(req & _ & -> & _)|(error & _ & _ & -> & _)]]; [by eexists|done].
    + rewrite (handleSubmit_invalid _ Hne). exact Hf.
  - destruct (disabled f); [exact Hf|].
    destruct (handleChange_keeps key v f) as (_ & -> & _ & -> & _). exact Hf.
  - destruct (disabled f); [exact Hf|].
    unfold handleCancel. destruct (onCancel _); exact Hf.
  - destruct (awaiting f) as [c|] eqn:Ha; [|by rewrite <- Ha in Hf].
    by destruct (resume_settles (call_finish c r) (set_awaiting None f)) as (-> & _).
  - destruct (earlier f !! i) as [c|]; [|exact Hf].
    by destruct (resume_settles (call_finish c r) (set_earlier (delete i (earlier f)) f))
      as (-> & _).
  - exact Hf.
Qed.

Lemma reachable_consistent f : reachable f -> consistent f.
Proof. induction 1 as [p|f e _ IH]; [done|by apply step_consistent]. Qed.

(** C5.  [validate] reports a [title] error for a title that is missing
    or shorter than 3 or longer than 100, and a [userId] error for a user
    id that is missing, not a number, or outside [1, 10]; both are keys
    of the one mapping it returns; and a submission of a draft with any
    field error makes no service call and sends no request. *)
Theorem violations_reported_and_blocking (draft : todo) (f : form) :
  (title_violation (Todo.title draft) -> is_Some (validate draft !! "title")) /\
  (userId_violation (Todo.userId draft) -> is_Some (validate draft !! "userId")) /\
  ((exists key, is_Some (validate (values f) !! key)) ->
     calls (step f Submit) = calls f /\ requests (step f Submit) = requests f).
Proof.
  split; [|split].
  - rewrite validate_title. apply title_rejected.
  - rewrite validate_userId. apply userId_rejected.
  - intros (key & m & Hm). cbn [step].
    destruct (disabled f); [done|].
    rewrite handleSubmit_invalid; [done|].
    intros He. by rewrite He in Hm.
Qed.

(** C6.  For the draft [{ title: "ab", userId: 1 }] the mapping is
    exactly [{ title: "Title must be at least 3 characters" }], and
    submitting it makes no service call and sends no request. *)
Theorem short_title_scenario (f : form) :
  let draft := {| Todo.id := JUndefined; Todo.title := JStr "ab";
                  Todo.completed := JUndefined; Todo.userId := num 1 |} in
  validate draft = {[ "title" := Yup.Text "Title must be at least 3 characters" ]} /\
  calls (step (set_values draft f) Submit) = calls f /\
  requests (step (set_values draft f) Submit) = requests f.
Proof.
  intros draft.
  assert (validate draft =
            {[ "title" := Yup.Text "Title must be at least 3 characters" ]}) as Hv
    by reflexivity.
  split; [exact Hv|]. cbn [step].
  destruct (disabled (set_values draft f)); [done|].
  rewrite handleSubmit_invalid; [done|].
  cbn [values set_values]. rewrite Hv. apply insert_non_empty.
Qed.

(** C9.  Validation is idempotent on the form: running the resolver a
    second time changes nothing, it leaves the draft as it was, and the
    errors it stores are a function of the draft alone, whatever else
    the form holds; a submission shows the errors of [validate], and
    submitting an unmodified draft that has errors a second time gives
    the same form, errors included. *)
Theorem validate_idempotent (f g : form) (draft : todo) :
  resolve (resolve f) = resolve f /\
  values (resolve f) = values f /\
  errors (resolve f) = validate (values f) /\
  errors (resolve (set_values draft f)) = errors (resolve (set_values draft g)) /\
  (isSubmitting f = false -> errors (step f Submit) = validate (values f)) /\
  (validate (values f) <> ∅ -> run f [Submit; Submit] = run f [Submit]).
Proof.
  do 4 (split; [done|]). split.
  - intros Hs. cbn [step]. unfold disabled. rewrite Hs. cbn [andb].
    destruct (decide (validate (values f) = ∅)) as [He|Hne].
    + rewrite (handleSubmit_valid _ He). unfold onSubmit.
      by destruct (call_start _).
    + by rewrite (handleSubmit_invalid _ Hne).
  - intros Hne. unfold run. cbn [foldl step].
    destruct (disabled f) eqn:Hd; [by rewrite Hd|].
    rewrite (handleSubmit_invalid _ Hne).
    change (disabled (set_isSubmitted true (resolve f))) with (disabled f).
    rewrite Hd. by rewrite handleSubmit_invalid.
Qed.

(** What the [catch] block of [onSubmit] shows is never empty. *)
Lemma resume_rejected error f :
  let f' := onSubmit_resume (Services.Rejected error) f in
  submitError f' =
    Some (Services.or_text (Services.message error)
            "Failed to save todo. Please try again.") /\
  values f' = values f /\ isSubmitting f' = false /\
  notices f' = notices f /\ awaiting f' = awaiting f.
Proof. done. Qed.

(** A call the store fails is rejected with an [Error] that has a
    message. *)
Lemma finish_failure c (e : Services.axios_error) :
  exists text, call_finish c (Services.Failure e) = Services.Rejected (Services.Error text) /\
               text <> "".
Proof.
  destruct c; cbn; unfold Services.normalize;
    destruct (Services.response e) as [[status body]|];
    try destruct (Services.request_sent e);
    eexists; (split; [done|]);
    try done; by apply ServicesFacts.or_text_nonempty.
Qed.

(** C2.  A valid draft is submitted and the service call fails, be it
    in the store or before reaching it: afterwards [submitError] is a
    non-empty string (the message the call was rejected with, when the
    store failed), the values of the fields are what they were,
    [isSubmitting] is false, and no callback has closed the form. *)
Theorem submit_failure_keeps_draft f (e : Services.axios_error) :
  reachable f -> isSubmitting f = false -> validate (values f) = ∅ ->
  let f' := run f [Submit; Reply (Services.Failure e)] in
  (exists text, submitError f' = Some text /\ text <> "" /\
     forall c, awaiting (step f Submit) = Some c ->
       call_finish c (Services.Failure e) = Services.Rejected (Services.Error text)) /\
  values f' = values f /\
  isSubmitting f' = false /\
  notices f' = notices f.
Proof.
  intros _ Hs He f'. subst f'.
  assert (step f Submit = onSubmit (cast_values (values f)) (resolve f)) as Hstep.
  { cbn [step]. unfold disabled. by rewrite Hs, handleSubmit_valid. }
  unfold run. cbn [foldl]. rewrite Hstep.
  unfold onSubmit.
  cbn [given setSubmitError setIsSubmitting set_unrendered record_call resolve set_errors].
  set (c := if isEditMode (given f) then _ else _).
  destruct (call_start c) as [error|req] eqn:Hc.
  - (* the service function throws before the request *)
    cbn [step onSubmit_resume awaiting setIsSubmitting setSubmitError record_call
         set_isSubmitted set_unrendered resolve set_errors].
    destruct (awaiting f) as [c0|] eqn:Ha.
    + (* the answer is that of a call still in flight *)
      destruct (finish_failure c0 e) as (text & Hfin & Hne).
      rewrite Hfin. cbn. split; [|done]. exists text.
      unfold Services.or_text. rewrite (proj2 (String.eqb_neq _ _) Hne).
      split; [done|]. split; [done|]. by intros c' [= <-].
    + cbn. split; [|done]. eexists. split; [done|]. split; [|done].
      by apply ServicesFacts.or_text_nonempty.
  - (* the store answers with a failure *)
    cbn [step awaiting suspend set_awaiting].
    destruct (finish_failure c e) as (text & Hfin & Hne).
    rewrite Hfin. cbn.
    split; [|done]. exists text.
    unfold Services.or_text. rewrite (proj2 (String.eqb_neq _ _) Hne).
    split; [done|]. split; [done|].
    by intros c' [= <-].
Qed.
End WithEngine.

(** *** Instances on the sample data *)

Lemma typed_reachable : reachable (E := Sample.engine) typed.
Proof. exact (reachable_step _ _ (reachable_mount addProps)). Qed.

Lemma submitted_reachable : reachable (E := Sample.engine) submitted.
Proof. exact (reachable_step _ _ typed_reachable). Qed.

(** "Buy milk" is submitted and the store returns the todo 201: one
    request, the form reset and not submitting, the todo handed over. *)
Example buy_milk_created :
  let f := run (E := Sample.engine) typed
             [Submit; Reply (Services.Response Sample.created)] in
  requests f = [Services.Post "/todos" Sample.buyMilk] /\
  notices f = [SubmitSuccess Sample.created] /\
  isSubmitting f = false /\ submitError f = None /\
  values f = emptyDefaults.
Proof. vm_compute. done. Qed.

(** A title of three spaces passes the schema and is refused by the
    service before any request. *)
Example blank_title_refused :
  let f := run (E := Sample.engine) (mount addProps)
             [Change "title" (JStr "   "); Submit] in
  errors f = ∅ /\ requests f = [] /\
  submitError f = Some "Todo title is required" /\ isSubmitting f = false.
Proof. vm_compute. done. Qed.

Lemma violations_reported_and_blocking_witness :
  let draft := {| Todo.id := JUndefined; Todo.title := JStr "ab";
                  Todo.completed := JBool false; Todo.userId := JStr "11" |} in
  let f := set_values draft (mount addProps) in
  title_violation (Todo.title draft) /\
  userId_violation (E := Sample.engine) (Todo.userId draft) /\
  is_Some (validate (E := Sample.engine) draft !! "title") /\
  is_Some (validate (E := Sample.engine) draft !! "userId") /\
  calls (step (E := Sample.engine) f Submit) = [] /\
  requests (step (E := Sample.engine) f Submit) = [].
Proof.
  intros draft f.
  assert (title_violation (Todo.title draft)) as Ht.
  { right. exists "ab". split; [reflexivity|]. left. reflexivity. }
  assert (userId_violation (E := Sample.engine) (Todo.userId draft)) as Hu.
  { right. right. exists (Fin (inject_Z 11)). split; [reflexivity|]. right. reflexivity. }
  destruct (violations_reported_and_blocking (E := Sample.engine) draft f)
    as (Htitle & HuserId & Hblock).
  split; [exact Ht|]. split; [exact Hu|].
  split; [exact (Htitle Ht)|]. split; [exact (HuserId Hu)|].
  apply Hblock. exists "title". exact (Htitle Ht).
Defined.

Lemma submit_failure_keeps_draft_witness :
  let f' := run (E := Sample.engine) typed
              [Submit; Reply (Services.Failure Sample.networkError)] in
  reachable (E := Sample.engine) typed /\
  isSubmitting typed = false /\
  validate (E := Sample.engine) (values typed) = ∅ /\
  (exists text, submitError f' = Some text /\ text <> "" /\
     forall c, awaiting (step (E := Sample.engine) typed Submit) = Some c ->
       call_finish (E := Sample.engine) c (Services.Failure Sample.networkError)
       = Services.Rejected (Services.Error text)) /\
  values f' = values typed /\
  isSubmitting f' = false /\
  notices f' = notices typed.
Proof.
  intros f'.
  assert (validate (E := Sample.engine) (values typed) = ∅) as He by reflexivity.
  split; [exact typed_reachable|]. split; [reflexivity|]. split; [exact He|].
  exact (submit_failure_keeps_draft (E := Sample.engine) typed Sample.networkError
           typed_reachable eq_refl He).
Defined.
Lemma validate_idempotent_witness :
  let draft := {| Todo.id := JUndefined; Todo.title := JStr "ab";
                  Todo.completed := JBool false; Todo.userId := num 1 |} in
  let f := set_values draft (mount addProps) in
  isSubmitting f = false /\
  validate (E := Sample.engine) (values f) <> ∅ /\
  errors (step (E := Sample.engine) f Submit)
    = {[ "title" := Yup.Text "Title must be at least 3 characters" ]} /\
  run (E := Sample.engine) f [Submit; Submit] = run (E := Sample.engine) f [Submit].
Proof.
  intros draft f.
  assert (validate (E := Sample.engine) (values f) <> ∅) as Hne by discriminate.
  destruct (validate_idempotent (E := Sample.engine) f f draft)
    as (_ & _ & _ & _ & Hshown & Htwice).
  split; [reflexivity|]. split; [exact Hne|].
  split; [exact (Hshown eq_refl)|exact (Htwice Hne)].
Defined.
End FormFacts.

(** ** The list held by [App] *)

Module AppFacts.
Import Js Spec Terms JsFacts.
Import Todo (todo).
Import Services (Fulfilled, Rejected).
Import App AppEvents.



Lemma occurrences_absent x l : x ∉ l -> occurrences x l = 0%nat.
Proof.
  intros Hx. apply count_occ_not_In. by rewrite <- list_elem_of_In.
Qed.

(** The handler of a render that is adding puts the new todo in front of
    the list of that render. *)
Lemma handler_prepends (newTodo : todo) (s : app) :
  editingTodo s = None ->
  let l' := todos (onSubmitSuccess newTodo s) in
  l' = newTodo :: todos s /\
  length l' = S (length (todos s)) /\
  occurrences newTodo l' = S (occurrences newTodo (todos s)) /\
  (newTodo ∉ todos s -> occurrences newTodo l' = 1%nat).
Proof.
  intros Hadd. unfold onSubmitSuccess. rewrite Hadd.
  cbn [todos setTodos setShowForm setEditingTodo].
  assert (occurrences newTodo (newTodo :: todos s) = S (occurrences newTodo (todos s)))
    as Hocc by (unfold occurrences; by rewrite count_occ_cons_eq).
  split; [done|]. split; [done|]. split; [exact Hocc|].
  intros Hx. by rewrite Hocc, occurrences_absent.
Qed.


(** *** The events of [App] *)

Lemma step_unmounted st e : mounted (now st) = false -> step st e = st.
Proof. intros Hm. unfold step. by rewrite Hm. Qed.

Lemma step_FormSubmit st :
  mounted (now st) = true -> showForm (now st) = true ->
  step st FormSubmit = {| now := now st; captured := captured st ++ [now st] |}.
Proof. intros Hm Hs. unfold step. by rewrite Hm, Hs. Qed.

Lemma step_Settle st o :
  mounted (now st) = true -> loading (now st) = true ->
  step st (Settle o) = with_now (settle o (now st)) st.
Proof. intros Hm Hl. unfold step. by rewrite Hm, Hl. Qed.

Lemma step_FormSuccess st i seen newTodo :
  mounted (now st) = true -> captured st !! i = Some seen ->
  step st (FormSuccess i newTodo)
    = {| now := late_onSubmitSuccess newTodo seen (now st);
         captured := delete i (captured st) |}.
Proof. intros Hm Hc. unfold step. by rewrite Hm, Hc. Qed.

Lemma settle_mounted o s :
  mounted s = true ->
  loading (settle o s) = false /\ showForm (settle o s) = showForm s /\
  editingTodo (settle o s) = editingTodo s /\ mounted (settle o s) = true.
Proof. intros Hm. unfold settle. destruct o; cbn; rewrite Hm; cbn; by rewrite Hm. Qed.

Lemma Forall_delete_at {A} (P : A -> Prop) (l : list A) i :
  Forall P l -> Forall P (delete i l).
Proof.
  intros Hl. revert i. induction Hl as [|x l Hx Hl IH]; intros [|i]; cbn; try done.
  constructor; [done|apply IH].
Qed.

Lemma step_app_invariant st e : app_invariant st -> app_invariant (step st e).
Proof.
  intros Hinv. pose proof Hinv as [He Hc].
  destruct (mounted (now st)) eqn:Hm; [|rewrite step_unmounted by done; exact Hinv].
  unfold step. rewrite Hm. cbv beta iota zeta delta [negb].
  destruct e as [o| |row| |i n|i| |].
  - destruct (loading (now st)) eqn:Hl; [|exact Hinv].
    destruct (settle_mounted o _ Hm) as (Hl' & Hs' & He' & Hm').
    split; cbn [now captured with_now]; [|exact Hc].
    intros t Ht. rewrite He' in Ht. destruct (He t Ht) as (_ & Hl0 & _). congruence.
  - destruct (showForm (now st)) eqn:Hs; [exact Hinv|].
    split; cbn [now captured with_now]; [|exact Hc]. by intros t Ht.
  - destruct (table_shown (now st)) eqn:Ht; [|exact Hinv].
    destruct (todos (now st) !! row) as [t|] eqn:Hrow; [|exact Hinv].
    apply andb_true_iff in Ht as [Hl%negb_true_iff _].
    split; cbn [now captured with_now]; [|exact Hc].
    intros t' [= <-]. split; [done|]. split; [exact Hl|].
    by eapply list_elem_of_lookup_2.
  - destruct (showForm (now st)) eqn:Hs; [|exact Hinv].
    split; cbn [now captured]; [exact (proj1 Hinv)|].
    apply Forall_app. split; [exact Hc|]. constructor; [exact (proj1 Hinv)|constructor].
  - destruct (captured st !! i) as [seen|] eqn:Hseen; [|exact Hinv].
    split; cbn [now captured]; [by intros t Ht|]. by apply Forall_delete_at.
  - split; cbn [now captured]; [exact (proj1 Hinv)|]. by apply Forall_delete_at.
  - destruct (showForm (now st)) eqn:Hs; [|exact Hinv].
    split; cbn [now captured with_now]; [|exact Hc]. by intros t Ht.
  - split; cbn [now captured with_now]; [exact He|exact Hc].
Qed.

Lemma reachable_app_invariant st : reachable st -> app_invariant st.
Proof.
  induction 1 as [|st e _ IH]; [|by apply step_app_invariant].
  split; [by intros t Ht|constructor].
Qed.

(** C7, as amended.  The form was opened with "+ Add New Todo" and
    submitted in a render of [App]; when the store answers that submit,
    the list becomes the new todo in front of the list of that render,
    which is the list shown if the list has not changed since: it is one
    longer and holds the new entry once more than that list did, hence
    exactly once when no equal entry was there. *)
Theorem create_prepends st i seen (newTodo : todo) :
  mounted (now st) = true ->
  captured st !! i = Some seen -> editingTodo seen = None ->
  let l' := todos (now (step st (FormSuccess i newTodo))) in
  l' = newTodo :: todos seen /\
  length l' = S (length (todos seen)) /\
  occurrences newTodo l' = S (occurrences newTodo (todos seen)) /\
  (newTodo ∉ todos seen -> occurrences newTodo l' = 1%nat) /\
  (todos (now st) = todos seen -> l' = newTodo :: todos (now st)).
Proof.
  intros Hm Hseen Hadd l'. subst l'.
  rewrite (step_FormSuccess st i seen newTodo Hm Hseen).
  cbn [now late_onSubmitSuccess todos setTodos setShowForm setEditingTodo].
  destruct (handler_prepends newTodo seen Hadd) as (Hl & Hlen & Hocc & Honce).
  cbv zeta in Hl, Hlen, Hocc, Honce.
  split; [exact Hl|]. split; [exact Hlen|]. split; [exact Hocc|]. split; [exact Honce|].
  intros ->. exact Hl.
Qed.



(** Where the claim of a create fails as it stands.  The store answers two
    creates alike and the list holds the new entry twice.  The form is
    submitted while the list is loading and the rows that arrive meanwhile
    are gone after the answer.  The form is opened on a todo whose
    identifier is 0: it creates, and [App] maps the answer over the list,
    which stays as it is. *)
Lemma create_counterexample :
  (let st := run start [Settle (Fulfilled [Sample.first; Sample.second]);
                        ClickAdd; FormSubmit; FormSuccess 0 Sample.created;
                        ClickAdd; FormSubmit] in
   let st' := step st (FormSuccess 0 Sample.created) in
   editingTodo (now st) = None /\ captured st = [now st] /\
   todos (now st') = Sample.created :: todos (now st) /\
   occurrences Sample.created (todos (now st')) = 2%nat /\
   ~ prepended_once Sample.created (now st)) /\
  (let st := run start [ClickAdd; FormSubmit;
                        Settle (Fulfilled [Sample.first; Sample.second])] in
   let st' := step st (FormSuccess 0 Sample.created) in
   todos (now st) = [Sample.first; Sample.second] /\
   todos (now st') = [Sample.created] /\
   todos (now st') <> Sample.created :: todos (now st) /\
   length (todos (now st')) <> S (length (todos (now st)))) /\
  (let st := run start [Settle (Fulfilled [Cases.zeroth; Sample.second]);
                        ClickEdit 0; FormSubmit] in
   let st' := step st (FormSuccess 0 Sample.created) in
   TodoForm.isEditMode (form_props (now st)) = false /\
   todos (now st') = todos (now st) /\
   todos (now st') <> Sample.created :: todos (now st) /\
   occurrences Sample.created (todos (now st')) = 0%nat).
Proof.
  split; [|split].
  - split; [reflexivity|]. split; [reflexivity|]. split; [reflexivity|].
    split; [reflexivity|].
    intros (_ & _ & Honce). vm_compute in Honce. discriminate Honce.
  - split; [reflexivity|]. split; [reflexivity|]. split; discriminate.
  - split; [reflexivity|]. split; [reflexivity|]. split; [discriminate|reflexivity].
Qed.

Lemma create_prepends_witness :
  let st := run start [Settle (Fulfilled [Sample.first; Sample.second]);
                       ClickAdd; FormSubmit] in
  let l' := todos (now (step st (FormSuccess 0 Sample.created))) in
  mounted (now st) = true /\ captured st !! 0%nat = Some (now st) /\
  editingTodo (now st) = None /\
  l' = [Sample.created; Sample.first; Sample.second] /\
  occurrences Sample.created l' = 1%nat.
Proof.
  intros st l'.
  destruct (create_prepends st 0 (now st) Sample.created eq_refl eq_refl eq_refl)
    as (Hl & _ & Hocc & _).
  split; [reflexivity|]. split; [reflexivity|]. split; [reflexivity|].
  split; [exact Hl|exact Hocc].
Defined.

End AppFacts.

(** ** Late results *)

Module ViewFacts.
Import Js.
Import Services (settled).

(** The list view discards a result that arrives after its teardown. *)
Lemma list_view_ignores_late_result outcome s :
  TodosListPage.settle outcome (TodosListPage.unmount s) = TodosListPage.unmount s.
Proof. by destruct outcome. Qed.

(** So does [App]. *)
Lemma app_ignores_late_result outcome s :
  App.settle outcome (App.unmount s) = App.unmount s.
Proof. by destruct outcome. Qed.

(** The list view, mounted: the result of the load is applied. *)
Example list_view_loads :
  TodosListPage.shown
    (TodosListPage.settle (Services.Fulfilled [Sample.first; Sample.second])
       TodosListPage.mount)
  = ([Sample.first; Sample.second], false, None).
Proof. reflexivity. Qed.

(** The edit page, mounted: the result of the load is applied. *)
Example form_page_loads :
  TodoFormPage.shown
    (TodoFormPage.settle (Services.Fulfilled Sample.first) (TodoFormPage.mount (JStr "1")))
  = (Some Sample.first, false, None).
Proof. reflexivity. Qed.

(** C1.  A result that arrives after the view has been torn down, be it
    a success or a failure, changes no state of the view.  The list view
    sees to it itself: the cleanup of its effect clears [mounted], which
    guards every setter.  The edit page has no such flag: its callbacks
    call the setters, and React discards the calls since the component is
    unmounted.  While the views are mounted the same results are applied. *)
Theorem late_results_change_nothing
    (l : TodosListPage.page) (p : TodoFormPage.page)
    (loaded : settled (list Todo.todo)) (fetched : settled Todo.todo) :
  TodosListPage.settle loaded (TodosListPage.unmount l) = TodosListPage.unmount l /\
  TodosListPage.shown (TodosListPage.settle loaded (TodosListPage.unmount l))
    = TodosListPage.shown l /\
  TodoFormPage.settle fetched (TodoFormPage.unmount p) = TodoFormPage.unmount p /\
  TodoFormPage.shown (TodoFormPage.settle fetched (TodoFormPage.unmount p))
    = TodoFormPage.shown p /\
  (TodosListPage.mounted l = true -> TodosListPage.loading l = true ->
   TodosListPage.shown (TodosListPage.settle loaded l) <> TodosListPage.shown l) /\
  (TodoFormPage.live p = true -> TodoFormPage.loading p = true ->
   TodoFormPage.shown (TodoFormPage.settle fetched p) <> TodoFormPage.shown p).
Proof.
  split; [by destruct loaded|]. split; [by destruct loaded|].
  split; [by destruct fetched|]. split; [by destruct fetched|]. split.
  - intros Hm Hl. unfold TodosListPage.settle.
    destruct loaded; rewrite Hm; cbn; rewrite Hm; cbn; intros [=]; congruence.
  - intros Hm Hl. destruct p as [i d loading e live]. cbn in Hm, Hl. subst.
    destruct fetched; cbn; intros [=].
Qed.
End ViewFacts.

(** * Further properties *)

(** ** Data access layer *)

Module ServicesMore.
Import Js Spec JsFacts ServicesFacts.
Import Todo (todo).
Import Services.

Section WithEngine.
Context {E : JsEngine}.

Lemma title_guard_message v e : title_guard v = Some e -> message e <> "".
Proof.
  rewrite title_guard_cases.
  destruct (empty_or_whitespace v); [by intros [= <-]|].
  destruct v; intros [= <-]; done.
Qed.

Lemma finish_message {A} unknown (r : reply A) e :
  unknown <> "" -> finish unknown r = Rejected e -> message e <> "".
Proof.
  intros Hu. destruct r as [data|failure]; [done|].
  intros [= <-]. by apply normalize_message.
Qed.

(** X1.  Whatever the store does and whatever they are given, the four service
    functions never reject with an empty message. *)
Theorem rejections_carry_a_message
    (lists : request -> reply (list todo)) (store : request -> reply todo)
    (id : jsval) (todoData : todo) (e : js_error) :
  (getTodos lists).2 = Rejected e \/
  (getTodoById store id).2 = Rejected e \/
  (addTodo store todoData).2 = Rejected e \/
  (updateTodo store id todoData).2 = Rejected e ->
  message e <> "".
Proof.
  unfold getTodos, getTodoById, addTodo, updateTodo,
    getTodoById_start, addTodo_start, updateTodo_start, addTodo_settle, updateTodo_settle.
  intros [He|[He|[He|He]]]; cbn [snd] in He.
  - (eapply finish_message; [|exact He]; done).
  - destruct (nullish id); cbn [snd] in He; [by injection He as <-|].
    (eapply finish_message; [|exact He]; done).
  - destruct (title_guard _) as [g|] eqn:Hg; cbn [snd] in He.
    + injection He as <-. by eapply title_guard_message.
    + (eapply finish_message; [|exact He]; done).
  - destruct (nullish id); cbn [snd] in He; [by injection He as <-|].
    destruct (title_guard _) as [g|] eqn:Hg; cbn [snd] in He.
    + injection He as <-. by eapply title_guard_message.
    + (eapply finish_message; [|exact He]; done).
Qed.

(** X2.  Each service function makes one request or none, and none exactly
    when one of its guards fails (or [trim] throws): then it rejects
    without the store being asked.  Otherwise it settles as the store
    answers its one request: it fulfils with the data of the response as it
    came, and with nothing else. *)
Theorem fulfilled_with_the_answer
    (lists : request -> reply (list todo)) (store : request -> reply todo)
    (id : jsval) (todoData : todo) :
  let settles := fun (A : Type) (unknown : string) (answer : reply A) =>
    match answer with
    | Response data => Fulfilled data
    | Failure e => Rejected (normalize unknown e)
    end in
  let sendable_title :=
    (exists s, Todo.title todoData = JStr s) /\
    empty_or_whitespace (Todo.title todoData) = false in
  (exists req, getTodos lists
               = ([req], settles _ "Unknown error fetching todos" (lists req))) /\
  (nullish id = true -> exists e, getTodoById store id = ([], Rejected e)) /\
  (nullish id = false ->
   exists req, getTodoById store id
               = ([req], settles _ "Unknown error fetching todo" (store req))) /\
  (~ sendable_title -> exists e, addTodo store todoData = ([], Rejected e)) /\
  (sendable_title ->
   exists req, addTodo store todoData
               = ([req], settles _ "Unknown error creating todo" (store req))) /\
  (nullish id = true \/ ~ sendable_title ->
   exists e, updateTodo store id todoData = ([], Rejected e)) /\
  (nullish id = false -> sendable_title ->
   exists req, updateTodo store id todoData
               = ([req], settles _ "Unknown error updating todo" (store req))) /\
  (forall l, (getTodos lists).2 = Fulfilled l <->
             exists req, (getTodos lists).1 = [req] /\ lists req = Response l) /\
  (forall t, (getTodoById store id).2 = Fulfilled t <->
             exists req, (getTodoById store id).1 = [req] /\ store req = Response t) /\
  (forall t, (addTodo store todoData).2 = Fulfilled t <->
             exists req, (addTodo store todoData).1 = [req] /\ store req = Response t) /\
  (forall t, (updateTodo store id todoData).2 = Fulfilled t <->
             exists req, (updateTodo store id todoData).1 = [req] /\ store req = Response t).
Proof.
  intros settles sendable_title.
  assert (forall A unknown (r : reply A) x,
            finish unknown r = Fulfilled x <-> r = Response x) as Hfin.
  { intros A unknown [data|failure] x; cbn; split; congruence. }
  assert (match title_guard (Todo.title todoData) with
          | Some _ => ~ sendable_title
          | None => sendable_title
          end) as Hguard.
  { rewrite title_guard_cases. unfold sendable_title.
    destruct (empty_or_whitespace (Todo.title todoData)); [by intros [_ [=]]|].
    destruct (Todo.title todoData); try (by intros [[s [=]] _]).
    split; [by eexists|done]. }
  unfold getTodos, getTodoById, addTodo, updateTodo, getTodoById_start, addTodo_start,
    updateTodo_start, addTodo_settle, updateTodo_settle.
  split; [by eexists|].
  split; [intros ->; by eexists|]. split; [intros ->; by eexists|].
  split; [|split; [|split; [|split]]].
  - intros Hno. destruct (title_guard _); [by eexists|done].
  - intros Hyes. destruct (title_guard _); [done|by eexists].
  - intros [->|Hno]; [by eexists|].
    destruct (nullish id); [by eexists|].
    destruct (title_guard _); [by eexists|done].
  - intros -> Hyes. destruct (title_guard _); [done|by eexists].
  - split; [|split; [|split]]; intros x.
    + cbn. rewrite Hfin. split; [by eexists|]. by intros (req & [= <-] & ?).
    + destruct (nullish id); cbn.
      * split; [done|]. by intros (? & ? & _).
      * rewrite Hfin. split; [by eexists|]. by intros (req' & [= <-] & ?).
    + destruct (title_guard _); cbn.
      * split; [done|]. by intros (? & ? & _).
      * rewrite Hfin. split; [by eexists|]. by intros (req' & [= <-] & ?).
    + destruct (nullish id); cbn; [split; [done|]; by intros (? & ? & _)|].
      destruct (title_guard _); cbn.
      * split; [done|]. by intros (? & ? & _).
      * rewrite Hfin. split; [by eexists|]. by intros (req' & [= <-] & ?).
Qed.

(** X3.  The message of a failure names the operation only when the failure has
    no response, no request and no message of its own: in every other case
    the four functions report the same failure with the same error, and it
    is an [Error] in all cases. *)
Theorem failures_read_alike (unknown other : string) (error : axios_error) :
  (exists text, normalize unknown error = Error text) /\
  (is_Some (response error) \/ request_sent error = true \/ axios_message error <> "" ->
   normalize unknown error = normalize other error) /\
  (response error = None -> request_sent error = false -> axios_message error = "" ->
   normalize unknown error = Error unknown).
Proof.
  unfold normalize. split; [|split].
  - destruct (response error) as [[status body]|]; [by eexists|].
    destruct (request_sent error); by eexists.
  - intros Hshape. destruct (response error) as [[status body]|]; [done|].
    destruct (request_sent error); [done|].
    destruct Hshape as [[? [=]]|[[=]|Hm]].
    unfold or_text. by apply String.eqb_neq in Hm as ->.
  - by intros -> -> ->.
Qed.

Lemma or_twice v w : or (or v w) w = or v w.
Proof. unfold or. destruct (truthy v) eqn:Hv; [by rewrite Hv|]. by destruct (truthy w). Qed.

(** X4.  What is sent does not depend on [todoData.id], and the defaults are
    applied once and for all: calling a function again with the payload it
    sent makes the same request and settles alike. *)
Theorem payload_sent_again
    (store : request -> reply todo) (id other : jsval) (todoData : todo) :
  addTodo store (Todo.set "id" other todoData) = addTodo store todoData /\
  updateTodo store id (Todo.set "id" other todoData) = updateTodo store id todoData /\
  addTodo store (addTodo_payload todoData) = addTodo store todoData /\
  updateTodo store id (updateTodo_payload id todoData) = updateTodo store id todoData.
Proof.
  unfold addTodo, updateTodo, addTodo_start, updateTodo_start,
    addTodo_payload, updateTodo_payload.
  cbn. rewrite !or_twice. done.
Qed.

End WithEngine.

Lemma rejections_carry_a_message_witness :
  (getTodoById (E := Sample.engine) Sample.echo (num 7)).2
    = Rejected (Error "API error 404: {}") /\
  message (Error "API error 404: {}") <> "".
Proof.
  assert ((getTodoById (E := Sample.engine) Sample.echo (num 7)).2
            = Rejected (Error "API error 404: {}")) as Hr by reflexivity.
  split; [exact Hr|].
  exact (rejections_carry_a_message (E := Sample.engine)
           (fun _ => Failure Sample.networkError) Sample.echo (num 7) Sample.buyMilk _
           (or_intror (or_introl Hr))).
Defined.

Lemma failures_read_alike_witness :
  request_sent Sample.networkError = true /\
  normalize (E := Sample.engine) "Unknown error creating todo" Sample.networkError
    = normalize (E := Sample.engine) "Unknown error fetching todos" Sample.networkError.
Proof.
  split; [reflexivity|].
  exact (proj1 (proj2 (failures_read_alike (E := Sample.engine)
                         "Unknown error creating todo" "Unknown error fetching todos"
                         Sample.networkError))
           (or_intror (or_introl eq_refl))).
Defined.
End ServicesMore.

(** ** Validation schema *)

Module SchemaMore.
Import Js Spec Terms SchemaFacts.
Import Todo (todo).
Import TodoForm.

Section WithEngine.
Context {E : JsEngine}.

Lemma validate_completed draft :
  validate draft !! "completed" = Yup.field_error completed_schema (Todo.completed draft).
Proof. apply validate_lookup. Qed.

(** No error at all is no error in any of the three fields. *)
Lemma validate_empty_fields draft :
  validate draft = ∅ <->
  Yup.field_error title_schema (Todo.title draft) = None /\
  Yup.field_error completed_schema (Todo.completed draft) = None /\
  Yup.field_error userId_schema (Todo.userId draft) = None.
Proof.
  unfold validate, Yup.object_errors, todoValidationSchema.
  cbn [omap list_omap].
  change (Todo.get "title" draft) with (Todo.title draft).
  change (Todo.get "completed" draft) with (Todo.completed draft).
  change (Todo.get "userId" draft) with (Todo.userId draft).
  destruct (Yup.field_error title_schema _),
           (Yup.field_error completed_schema _),
           (Yup.field_error userId_schema _); cbn;
    (split; [intros Hm; try done; by apply insert_non_empty in Hm
            |intros (? & ? & ?); done]).
Qed.

Lemma title_cast v : nullish v = false -> exists s, Yup.cast title_schema v = JStr s.
Proof. destruct v; try done; intros _; by eexists. Qed.

Lemma title_errors v s :
  Yup.cast title_schema v = JStr s ->
  Yup.field_errors title_schema v =
    (if 3 <=? Yup.length_of s then [] else [Yup.Text "Title must be at least 3 characters"]) ++
    (if Yup.length_of s <=? 100 then [] else [Yup.Text "Title must not exceed 100 characters"]) ++
    (if Yup.length_of s =? 0 then [Yup.Text "Title is required"] else []).
Proof.
  intros Hc. unfold Yup.field_errors. rewrite Hc. cbn.
  unfold Yup.run_test. cbn.
  by destruct (3 <=? Yup.length_of s), (Yup.length_of s <=? 100), (Yup.length_of s =? 0).
Qed.

Lemma title_field_error v : Yup.field_error title_schema v = title_message v.
Proof.
  unfold title_message. destruct (nullish v) eqn:Hv; [by apply title_missing|].
  destruct (title_cast v Hv) as [s Hs]. rewrite Hs.
  unfold Yup.field_error. rewrite (title_errors v s Hs).
  destruct (3 <=? Yup.length_of s) eqn:H3, (Yup.length_of s <=? 100) eqn:H100,
           (Yup.length_of s =? 0) eqn:H0, (Yup.length_of s <? 3) eqn:L3,
           (100 <? Yup.length_of s) eqn:L100; try done; lia.
Qed.

Lemma userId_cast_number v :
  nullish v = false -> exists n, Yup.cast userId_schema v = JNum n.
Proof.
  destruct v as [| |b|n|s]; try done; intros _;
    unfold Yup.cast, Yup.transform; cbn; [by eexists..|].
  destruct (String.eqb _ _); by eexists.
Qed.

Lemma userId_field_error v : Yup.field_error userId_schema v = userId_message v.
Proof.
  unfold userId_message. destruct (nullish v) eqn:Hv; [by apply userId_missing|].
  destruct (userId_cast_number v Hv) as [n Hc].
  rewrite Hc. unfold Yup.field_error. rewrite (userId_number v n Hc).
  destruct n as [|neg|q]; [done| |];
    by destruct (number_le (Fin 1) _), (number_le _ (Fin 10)).
Qed.

Lemma completed_cast v : Yup.cast completed_schema v <> JUndefined.
Proof.
  destruct v as [| |b|n|s]; try done;
    unfold Yup.cast, Yup.transform; cbn;
    repeat (destruct (_ || _); [done|]); done.
Qed.

Lemma completed_field_error v :
  Yup.field_error completed_schema v = None <->
  exists b, Yup.cast completed_schema v = JBool b.
Proof.
  pose proof (completed_cast v) as Hd.
  unfold Yup.field_error, Yup.field_errors.
  destruct (Yup.cast completed_schema v) as [| |b|n|s]; cbn.
  - done.
  - split; [done|]. by intros [? ?].
  - split; [by eexists|done].
  - split; [done|]. by intros [? ?].
  - split; [done|]. by intros [? ?].
Qed.

Lemma validate_empty_accepted (draft : todo) : validate draft = ∅ <-> accepted draft.
Proof.
  rewrite validate_empty_fields, title_field_error, userId_field_error,
    completed_field_error.
  unfold accepted, title_message, userId_message.
  split.
  - intros (Ht & Hc & Hu). split; [|split; [exact Hc|]].
    + destruct (nullish (Todo.title draft)) eqn:Hn; [done|].
      destruct (title_cast _ Hn) as [s Hs]. rewrite Hs in Ht. exists s.
      split; [done|].
      destruct (Yup.length_of s <? 3) eqn:L3; [done|].
      destruct (100 <? Yup.length_of s) eqn:L100; [done|]. lia.
    + destruct (nullish (Todo.userId draft)) eqn:Hn; [done|].
      destruct (userId_cast_number _ Hn) as [n Hcast]. rewrite Hcast in Hu.
      exists n. split; [done|].
      destruct n as [|neg|q]; [done| |];
        by destruct (number_le (Fin 1) _), (number_le _ (Fin 10)).
  - intros ((s & Hs & Hlen) & Hc & (n & Hn & H1 & H10)). split; [|split; [exact Hc|]].
    + destruct (nullish (Todo.title draft)) eqn:Hnull.
      { by destruct (Todo.title draft). }
      rewrite Hs.
      destruct (Yup.length_of s <? 3) eqn:L3; [lia|].
      destruct (100 <? Yup.length_of s) eqn:L100; [lia|done].
    + destruct (nullish (Todo.userId draft)) eqn:Hnull.
      { by destruct (Todo.userId draft). }
      rewrite Hn, H1, H10. by destruct n.
Qed.
(** X5.  [validate] returns the empty mapping exactly for the drafts whose
    title casts to a string of 3 to 100 code units, whose [completed]
    casts to a boolean and whose user id casts to a number from 1 to 10. *)
Theorem no_errors_iff_accepted (draft : todo) : validate draft = ∅ <-> accepted draft.
Proof. apply validate_empty_accepted. Qed.

(** X6.  "Title is required" is the message of a missing title only; a title
    that is a string gets the message of its length, the empty string
    included, the message of the minimum coming first. *)
Theorem title_messages (draft : todo) :
  (validate draft !! "title" = Some (Yup.Text "Title is required")
     <-> nullish (Todo.title draft) = true) /\
  (forall s, Todo.title draft = JStr s ->
     validate draft !! "title" =
       if Yup.length_of s <? 3 then Some (Yup.Text "Title must be at least 3 characters")
       else if 100 <? Yup.length_of s
            then Some (Yup.Text "Title must not exceed 100 characters")
            else None).
Proof.
  rewrite validate_title, title_field_error. unfold title_message. split.
  - destruct (nullish (Todo.title draft)) eqn:Hn; [done|].
    destruct (title_cast _ Hn) as [s ->]. split; [|done].
    destruct (Yup.length_of s <? 3); [done|]. by destruct (100 <? Yup.length_of s).
  - by intros s ->.
Qed.

(** X7.  "User ID is required" is the message of a missing user id only; a
    value that casts to NaN, such as a blank string, gets the library's type
    message; a number gets the message of the bound it breaks, the lower
    bound first. *)
Theorem userId_messages (draft : todo) :
  (validate draft !! "userId" = Some (Yup.Text "User ID is required")
     <-> nullish (Todo.userId draft) = true) /\
  (forall s, Todo.userId draft = JStr s -> strip_white_space s = "" ->
     validate draft !! "userId" = Some (Yup.NotType Yup.TNumber (JNum NaN))) /\
  (forall n, Yup.cast userId_schema (Todo.userId draft) = JNum n ->
     validate draft !! "userId" =
       match n with
       | NaN => Some (Yup.NotType Yup.TNumber (JNum NaN))
       | _ =>
           if negb (number_le (Fin 1) n) then Some (Yup.Text "User ID must be at least 1")
           else if negb (number_le n (Fin 10))
                then Some (Yup.Text "User ID must not exceed 10")
                else None
       end).
Proof.
  rewrite validate_userId, userId_field_error. unfold userId_message.
  split; [|split].
  - destruct (nullish (Todo.userId draft)) eqn:Hn; [done|].
    destruct (userId_cast_number _ Hn) as [n ->]. split; [|done].
    destruct n as [|neg|q]; [done| |];
      by destruct (number_le (Fin 1) _), (number_le _ (Fin 10)).
  - intros s -> Hs. unfold Yup.cast, Yup.transform. cbn. by rewrite Hs.
  - intros n Hn.
    destruct (nullish (Todo.userId draft)) eqn:Hnull.
    { by destruct (Todo.userId draft). }
    rewrite Hn. by destruct n.
Qed.

Lemma cast_values_fields draft :
  cast_values draft =
    {| Todo.id := Todo.id draft;
       Todo.title := Yup.cast title_schema (Todo.title draft);
       Todo.completed := Yup.cast completed_schema (Todo.completed draft);
       Todo.userId := Yup.cast userId_schema (Todo.userId draft) |}.
Proof. by destruct draft. Qed.

Lemma title_cast_twice v :
  Yup.cast title_schema (Yup.cast title_schema v) = Yup.cast title_schema v.
Proof. by destruct v. Qed.

Lemma userId_cast_twice v :
  Yup.cast userId_schema (Yup.cast userId_schema v) = Yup.cast userId_schema v.
Proof.
  destruct v as [| |b|n|s]; try done.
  unfold Yup.cast, Yup.transform. cbn. by destruct (String.eqb _ _).
Qed.

Lemma boolean_transform v :
  Yup.transform Yup.TBoolean v = v \/ exists b, Yup.transform Yup.TBoolean v = JBool b.
Proof.
  destruct v as [| |b|n|s]; [by left|by left|by left| |];
    unfold Yup.transform; cbv beta iota zeta;
    (destruct (_ || _); [by right; eexists|]);
    (destruct (_ || _); [by right; eexists|]); by left.
Qed.

Lemma completed_cast_twice v :
  Yup.cast completed_schema (Yup.cast completed_schema v) = Yup.cast completed_schema v.
Proof.
  assert (forall w, w <> JUndefined ->
            Yup.cast completed_schema w =
              match Yup.transform Yup.TBoolean w with
              | JUndefined => JBool false
              | _ => Yup.transform Yup.TBoolean w
              end) as Hcast
    by (intros [] Hw; [by destruct Hw|reflexivity..]).
  destruct (decide (v = JUndefined)) as [->|Hv]; [done|].
  rewrite (Hcast v Hv).
  destruct (boolean_transform v) as [Heq|[b Heq]]; rewrite Heq; [|done].
  assert (Yup.cast completed_schema v = v) as Hsame.
  { rewrite (Hcast v Hv), Heq. by destruct v. }
  destruct v; try done; by destruct Hv.
Qed.

Lemma field_errors_cast s v :
  Yup.cast s (Yup.cast s v) = Yup.cast s v ->
  Yup.field_error s (Yup.cast s v) = Yup.field_error s v.
Proof. intros Hc. unfold Yup.field_error, Yup.field_errors. by rewrite Hc. Qed.

Lemma validate_ext d d' :
  Yup.field_error title_schema (Todo.title d) = Yup.field_error title_schema (Todo.title d') ->
  Yup.field_error completed_schema (Todo.completed d)
    = Yup.field_error completed_schema (Todo.completed d') ->
  Yup.field_error userId_schema (Todo.userId d) = Yup.field_error userId_schema (Todo.userId d') ->
  validate d = validate d'.
Proof.
  intros Ht Hc Hu. unfold validate, Yup.object_errors, todoValidationSchema.
  cbn [omap list_omap].
  change (Todo.get "title" ?x) with (Todo.title x).
  change (Todo.get "completed" ?x) with (Todo.completed x).
  change (Todo.get "userId" ?x) with (Todo.userId x).
  by rewrite Ht, Hc, Hu.
Qed.

Lemma validate_cast_values draft : validate (cast_values draft) = validate draft.
Proof.
  rewrite cast_values_fields.
  apply validate_ext; cbn [Todo.title Todo.completed Todo.userId]; apply field_errors_cast;
    [apply title_cast_twice|apply completed_cast_twice|apply userId_cast_twice].
Qed.

Lemma accepted_well_typed draft : accepted draft -> well_typed (cast_values draft).
Proof.
  intros ((s & Hs & Hlen) & (b & Hb) & (n & Hn & H1 & H10)).
  rewrite cast_values_fields. exists s, b, n.
  cbn [Todo.title Todo.completed Todo.userId]. by rewrite Hs, Hb, Hn.
Qed.

Lemma well_typed_accepted t : well_typed t -> accepted t /\ cast_values t = t.
Proof.
  intros (s & b & n & Ht & Hlen & Hc & Hu & H1 & H10).
  assert (Yup.cast userId_schema (JNum n) = JNum n) as Hcast by by destruct n.
  destruct t as [i title completed userId]. cbn in Ht, Hc, Hu. subst.
  split.
  - unfold accepted. cbn [Todo.title Todo.completed Todo.userId].
    split; [by exists s|]. split; [by exists b|]. by exists n.
  - rewrite cast_values_fields. cbn [Todo.id Todo.title Todo.completed Todo.userId].
    by rewrite Hcast.
Qed.

(** X8.  The values the resolver hands to [onSubmit] are stable: cast again
    they are themselves, validated again they give the errors of the draft;
    those of a draft without errors are well typed; and a well-typed todo,
    such as the store returns, has no errors and is handed over as it is. *)
Theorem cast_values_stable (draft : todo) :
  cast_values (cast_values draft) = cast_values draft /\
  validate (cast_values draft) = validate draft /\
  (validate draft = ∅ -> well_typed (cast_values draft)) /\
  (well_typed draft -> validate draft = ∅ /\ cast_values draft = draft).
Proof.
  split; [|split; [apply validate_cast_values|split]].
  - rewrite !cast_values_fields. cbn [Todo.id Todo.title Todo.completed Todo.userId].
    by rewrite title_cast_twice, completed_cast_twice, userId_cast_twice.
  - intros He. by apply accepted_well_typed, validate_empty_accepted.
  - intros Ht. destruct (well_typed_accepted _ Ht) as [Ha Hc].
    split; [by apply validate_empty_accepted|done].
Qed.
End WithEngine.
Lemma no_errors_iff_accepted_witness :
  accepted (E := Sample.engine) Sample.buyMilk /\
  validate (E := Sample.engine) Sample.buyMilk = ∅.
Proof.
  assert (accepted (E := Sample.engine) Sample.buyMilk) as Ha.
  { split; [|split].
    - exists "Buy milk". split; [reflexivity|]. split; discriminate.
    - by exists false.
    - exists (Fin (inject_Z 1)). by split. }
  split; [exact Ha|].
  exact (proj2 (no_errors_iff_accepted (E := Sample.engine) Sample.buyMilk) Ha).
Defined.

Lemma title_messages_witness :
  let draft := Todo.set_title (JStr "") Sample.buyMilk in
  Todo.title draft = JStr "" /\
  validate (E := Sample.engine) draft !! "title"
    = Some (Yup.Text "Title must be at least 3 characters").
Proof.
  intros draft. split; [reflexivity|].
  exact (proj2 (title_messages (E := Sample.engine) draft) "" eq_refl).
Defined.

Lemma userId_messages_witness :
  let draft := Todo.set_userId (JStr " ") Sample.buyMilk in
  Todo.userId draft = JStr " " /\ strip_white_space " " = "" /\
  validate (E := Sample.engine) draft !! "userId"
    = Some (Yup.NotType Yup.TNumber (JNum NaN)).
Proof.
  intros draft. split; [reflexivity|]. split; [reflexivity|].
  exact (proj1 (proj2 (userId_messages (E := Sample.engine) draft)) " " eq_refl eq_refl).
Defined.

Lemma cast_values_stable_witness :
  well_typed Sample.created /\
  validate (E := Sample.engine) Sample.created = ∅ /\
  cast_values (E := Sample.engine) Sample.created = Sample.created.
Proof.
  assert (well_typed Sample.created) as Ht.
  { exists "Buy milk", false, (Fin (inject_Z 1)).
    split; [reflexivity|]. split; [split; discriminate|]. by repeat split. }
  split; [exact Ht|].
  exact (proj2 (proj2 (proj2 (cast_values_stable (E := Sample.engine) Sample.created))) Ht).
Defined.
End SchemaMore.

(** ** Form state machine *)

Module FormMore.
Import Js Spec Terms JsFacts ServicesFacts SchemaFacts FormFacts SchemaMore.
Import Todo (todo).
Import TodoForm.

Section WithEngine.
Context {E : JsEngine}.

(** Reads the fields of a form through its setters. *)
Local Ltac fields :=
  cbn [given values errors isSubmitted isSubmitting submitError unrendered awaiting
       earlier calls requests notices setIsSubmitting setSubmitError set_errors
       set_values set_isSubmitted set_unrendered set_awaiting set_earlier record_call
       record_request notify reset suspend resolve] in *.

Lemma one_is_truthy n : number_le (Fin 1) n = true -> truthy (JNum n) = true.
Proof.
  destruct n as [|neg|q]; cbn; [done|done|].
  intros Hle%Qle_bool_iff. unfold is_zero.
  destruct (Qeq_bool q 0) eqn:Hz; [|done].
  apply Qeq_bool_iff in Hz. rewrite Hz in Hle. by compute in Hle.
Qed.

Lemma blank_string s : empty_or_whitespace (JStr s) = all_white_space s.
Proof.
  unfold empty_or_whitespace. cbn.
  destruct (String.eqb_spec s "") as [->|Hs]; [done|]. by destruct (all_white_space s).
Qed.

Lemma truthy_not_nullish v : truthy v = true -> nullish v = false.
Proof. by destruct v. Qed.

(** The defaults of the payload leave a well-typed todo as it is. *)
Lemma payload_well_typed data :
  well_typed data ->
  Services.addTodo_payload data = Todo.set "id" JUndefined data /\
  (forall id, Services.updateTodo_payload id data = Todo.set "id" id data) /\
  (forall id, well_typed (Todo.set "id" id data)).
Proof.
  intros (s & b & n & Ht & Hlen & Hc & Hu & H1 & H10).
  destruct data as [i title completed userId]. cbn in Ht, Hc, Hu. subst.
  unfold Services.addTodo_payload, Services.updateTodo_payload. cbn.
  rewrite (or_truthy (JNum n)) by by apply one_is_truthy.
  assert (or (JBool b) (JBool false) = JBool b) as -> by by destruct b.
  split; [done|]. split; [done|]. intros id. by exists s, b, n.
Qed.

(** A sound call fails before the store only on a blank title, and
    otherwise sends a request the form may send. *)
Lemma sound_call_start c :
  sound c ->
  call_start c = inl TitleRequired \/
  exists req, call_start c = inr req /\ sendable req /\
    match c, req with
    | AddTodo _, Services.Post _ _ => True
    | UpdateTodo id _, Services.Put _ payload => Todo.id payload = id
    | _, _ => False
    end.
Proof.
  destruct c as [data|id data]; cbn [sound call_start].
  - intros Hd. unfold Services.addTodo_start. rewrite title_guard_cases.
    destruct (payload_well_typed data Hd) as (Hp & _ & Hw).
    pose proof Hd as (s & b & n & Ht & _).
    destruct (empty_or_whitespace (Todo.title data)) eqn:Hblank; [by left|].
    right. rewrite Ht. eexists. split; [done|]. split; [|done].
    rewrite Hp. cbn [sendable]. split; [done|]. split; [by destruct data|].
    split; [apply Hw|]. by destruct data.
  - intros [Hd Hid]. unfold Services.updateTodo_start.
    rewrite (truthy_not_nullish _ Hid), title_guard_cases.
    destruct (payload_well_typed data Hd) as (_ & Hp & Hw).
    pose proof Hd as (s & b & n & Ht & _).
    destruct (empty_or_whitespace (Todo.title data)) eqn:Hblank; [by left|].
    right. rewrite Ht. eexists. split; [done|].
    rewrite Hp. split; [|by destruct data]. cbn [sendable].
    split; [by destruct data|]. split; [by destruct data|].
    split; [apply Hw|]. by destruct data.
Qed.

Lemma call_for_sound p draft : validate draft = ∅ -> sound (call_for p (cast_values draft)).
Proof.
  intros Hd%validate_empty_accepted%accepted_well_typed.
  unfold call_for, isEditMode, initialData_id.
  destruct (initialData p) as [t|]; [|done].
  by destruct (truthy (Todo.id t)) eqn:Hid.
Qed.

(** What one event does to the props and to the three logs. *)
Lemma step_logs f e :
  given (step f e) = given f /\
  (calls (step f e) = calls f /\ requests (step f e) = requests f \/
   e = Submit /\ disabled f = false /\ validate (values f) = ∅ /\
   let c := call_for (given f) (cast_values (values f)) in
   calls (step f e) = calls f ++ [c] /\
   (call_start c = inl TitleRequired /\ requests (step f e) = requests f \/
    exists req, call_start c = inr req /\ requests (step f e) = requests f ++ [req])).
Proof.
  assert (forall outcome g,
            given (onSubmit_resume outcome g) = given g /\
            calls (onSubmit_resume outcome g) = calls g /\
            requests (onSubmit_resume outcome g) = requests g) as Hresume.
  { intros outcome g. unfold onSubmit_resume.
    destruct outcome; cbn; [|done]. by destruct (onSubmitSuccess (given g)). }
  destruct e as [|key v| |r|i r|]; cbn [step].
  - destruct (disabled f) eqn:Hs; [by split; [|left]|].
    destruct (decide (validate (values f) = ∅)) as [He|Hne].
    + rewrite (handleSubmit_valid _ He).
      destruct (sound_call_start _ (call_for_sound (given f) _ He)) as [Hc|(req & Hc & _)];
        unfold onSubmit, call_for in *;
        cbn [given setSubmitError setIsSubmitting set_unrendered record_call resolve
             set_errors];
        rewrite Hc; (split; [done|]); right; (do 3 (split; [done|])); cbn;
        (split; [done|]); [by left|right; by exists req].
    + rewrite (handleSubmit_invalid _ Hne). by split; [|left].
  - destruct (disabled f); [by split; [|left]|].
    destruct (handleChange_keeps key v f) as (-> & _ & _ & _ & _ & -> & -> & _).
    by split; [|left].
  - destruct (disabled f); [by split; [|left]|].
    unfold handleCancel. cbn. destruct (onCancel (given f)); by split; [|left].
  - destruct (awaiting f) as [c|]; [|by split; [|left]].
    destruct (Hresume (call_finish c r) (set_awaiting None f)) as (-> & -> & ->).
    by split; [|left].
  - destruct (earlier f !! i) as [c|]; [|by split; [|left]].
    destruct (Hresume (call_finish c r) (set_earlier (delete i (earlier f)) f))
      as (-> & -> & ->).
    by split; [|left].
  - by split; [|left].
Qed.

Lemma reachable_sound f :
  reachable f ->
  Forall sound (calls f) /\
  Forall (fun req =>
            sendable req /\
            match req with
            | Services.Post _ _ => isEditMode (given f) = false
            | Services.Put _ payload =>
                isEditMode (given f) = true /\ Todo.id payload = initialData_id (given f)
            | Services.Get _ => False
            end) (requests f).
Proof.
  induction 1 as [p|f e _ [IHc IHr]]; [by split; constructor|].
  destruct (step_logs f e) as [Hg [[-> ->]|(-> & Hs & He & Hc & Hr)]].
  { by rewrite Hg. }
  cbv zeta in Hc, Hr. rewrite Hc, Hg.
  pose proof (call_for_sound (given f) _ He) as Hsound.
  split; [apply Forall_app; split; [done|by constructor]|].
  destruct Hr as [[_ ->]|(req & Hstart & ->)]; [done|].
  apply Forall_app. split; [done|]. constructor; [|constructor].
  destruct (sound_call_start _ Hsound) as [Hc'|(req' & Hc' & Hsend & Hmode)];
    [congruence|].
  assert (req' = req) as -> by congruence.
  split; [done|]. unfold call_for in Hmode.
  destruct (isEditMode (given f)); by destruct req.
Qed.

(** X9.  Every request a form has sent is a POST of a todo without id to
    [/todos], from a form in add mode, or a PUT to [/todos/<id>] of a todo
    carrying the truthy id of [initialData], from a form in edit mode; the
    todo sent is well typed by the schema and its title is not blank.  The
    form never sends a GET. *)
Theorem requests_are_sendable f req :
  reachable f -> req ∈ requests f ->
  sendable req /\
  match req with
  | Services.Post _ _ => isEditMode (given f) = false
  | Services.Put _ payload =>
      isEditMode (given f) = true /\ Todo.id payload = initialData_id (given f)
  | Services.Get _ => False
  end.
Proof.
  intros [_ Hr]%reachable_sound Hin.
  by apply (proj1 (Forall_forall _ _) Hr).
Qed.

(** X10.  Of the failures a service function has before reaching the store, the
    form can meet one only: the title guard, for a title of white space.
    The id guard and the TypeError of a title that is no string are out of
    its reach. *)
Theorem only_the_title_guard_fires f c e :
  reachable f -> c ∈ calls f -> call_start c = inl e ->
  e = TitleRequired /\
  exists data s, (c = AddTodo data \/ exists id, c = UpdateTodo id data) /\
                 Todo.title data = JStr s /\ all_white_space s = true.
Proof.
  intros [Hc _]%reachable_sound Hin Hstart.
  pose proof (proj1 (Forall_forall _ _) Hc c Hin) as Hsound.
  destruct (sound_call_start c Hsound) as [Ht|(req & Hr & _)]; [|congruence].
  split; [congruence|].
  destruct c as [data|id data]; cbn in Hsound, Ht.
  - destruct Hsound as (s & b & n & Htitle & _). exists data, s.
    split; [by left|]. split; [done|].
    unfold Services.addTodo_start in Ht.
    rewrite title_guard_cases, Htitle, blank_string in Ht.
    by destruct (all_white_space s).
  - destruct Hsound as [(s & b & n & Htitle & _) Hid]. exists data, s.
    split; [right; by exists id|]. split; [done|].
    unfold Services.updateTodo_start in Ht.
    rewrite (truthy_not_nullish _ Hid), title_guard_cases, Htitle, blank_string in Ht.
    by destruct (all_white_space s).
Qed.
Lemma edit_mode_id p : isEditMode p = true -> truthy (initialData_id p) = true.
Proof. unfold isEditMode, initialData_id. by destruct (initialData p). Qed.

Lemma blank_call_start p data s :
  Todo.title data = JStr s -> all_white_space s = true ->
  call_start (call_for p data) = inl TitleRequired.
Proof.
  intros Ht Hs. unfold call_for.
  destruct (isEditMode p) eqn:Hm; cbn [call_start].
  - unfold Services.updateTodo_start.
    rewrite (truthy_not_nullish _ (edit_mode_id p Hm)).
    by rewrite title_guard_cases, Ht, blank_string, Hs.
  - unfold Services.addTodo_start.
    by rewrite title_guard_cases, Ht, blank_string, Hs.
Qed.

Lemma idle_enabled f : isSubmitting f = false -> disabled f = false.
Proof. unfold disabled. by intros ->. Qed.

Lemma step_Submit f : disabled f = false -> step f Submit = handleSubmit f.
Proof. cbn [step]. by intros ->. Qed.

(** The form after the submission of a draft without errors: the failure
    of the title guard shown, or the request under way. *)
Lemma submit_valid f :
  disabled f = false -> validate (values f) = ∅ ->
  let c := call_for (given f) (cast_values (values f)) in
  let g := record_call c
             (set_unrendered true (setSubmitError None (setIsSubmitting true (resolve f)))) in
  call_start c = inl TitleRequired /\
    step f Submit = onSubmit_resume (Services.Rejected TitleRequired) g \/
  exists req,
    call_start c = inr req /\ sendable req /\
    step f Submit = suspend c (record_request req g).
Proof.
  intros Hs He c g. cbn [step]. rewrite Hs, (handleSubmit_valid _ He).
  unfold onSubmit.
  cbn [given setSubmitError setIsSubmitting set_unrendered record_call resolve set_errors].
  fold (call_for (given f) (cast_values (values f))). fold c. fold g.
  destruct (sound_call_start c (call_for_sound (given f) _ He))
    as [Hc|(req & Hc & Hsend & _)]; rewrite Hc.
  - left. by split.
  - right. exists req. by split.
Qed.

(** A valid draft whose title is not blank, submitted: the request is
    sent, whatever [isSubmitting] is. *)
Lemma submit_sends f :
  disabled f = false -> validate (values f) = ∅ ->
  empty_or_whitespace (Todo.title (cast_values (values f))) = false ->
  let c := call_for (given f) (cast_values (values f)) in
  let g := record_call c
             (set_unrendered true (setSubmitError None (setIsSubmitting true (resolve f)))) in
  exists req,
    call_start c = inr req /\ sendable req /\
    step f Submit = suspend c (record_request req g).
Proof.
  intros Hs He Hblank c g.
  destruct (submit_valid f Hs He) as [[Hstart _]|Hsent]; [|exact Hsent].
  exfalso. fold c in Hstart.
  assert (exists t, Todo.title (cast_values (values f)) = JStr t) as [t Ht].
  { apply validate_empty_accepted, accepted_well_typed in He
      as (t & ? & ? & ? & _). by exists t. }
  unfold c, call_for in Hstart.
  destruct (isEditMode (given f)) eqn:Hm; cbn [call_start] in Hstart.
  - unfold Services.updateTodo_start in Hstart.
    rewrite (truthy_not_nullish _ (edit_mode_id _ Hm)), title_guard_cases, Hblank, Ht
      in Hstart. done.
  - unfold Services.addTodo_start in Hstart.
    rewrite title_guard_cases, Hblank, Ht in Hstart. done.
Qed.

(** C3.  A draft with a field error never reaches the data access layer,
    and once React has rendered the form with [isSubmitting] true a
    submission is not delivered.  But nothing in [onSubmit] looks at
    [isSubmitting]: a valid draft submitted a second time before that
    render is sent a second time, while [isSubmitting] is true and the
    first call is in flight. *)
Theorem second_submit_calls_again f :
  isSubmitting f = false -> validate (values f) = ∅ ->
  empty_or_whitespace (Todo.title (cast_values (values f))) = false ->
  let c := call_for (given f) (cast_values (values f)) in
  let f1 := step f Submit in
  let f2 := step f1 Submit in
  (exists req,
     call_start c = inr req /\
     calls f1 = calls f ++ [c] /\ requests f1 = requests f ++ [req] /\
     isSubmitting f1 = true /\ awaiting f1 = Some c /\
     calls f2 = calls f ++ [c; c] /\ requests f2 = requests f ++ [req; req] /\
     isSubmitting f2 = true /\ awaiting f2 = Some c /\ earlier f2 = earlier f1 ++ [c]) /\
  step (step f1 Render) Submit = step f1 Render /\
  (forall g, validate (values g) <> ∅ -> calls (step g Submit) = calls g).
Proof.
  intros Hs He Hblank c f1 f2.
  destruct (submit_sends f (idle_enabled f Hs) He Hblank) as (req & Hstart & _ & H1).
  fold c in Hstart, H1.
  assert (disabled f1 = false /\ values f1 = values f /\ given f1 = given f)
    as (Hd1 & Hv1 & Hg1) by (subst f1; by rewrite H1).
  assert (validate (values f1) = ∅) as He1 by by rewrite Hv1.
  assert (empty_or_whitespace (Todo.title (cast_values (values f1))) = false) as Hblank1
    by by rewrite Hv1.
  destruct (submit_sends f1 Hd1 He1 Hblank1) as (req' & Hstart' & _ & H2).
  rewrite Hv1, Hg1 in Hstart', H2. fold c in Hstart', H2.
  assert (req' = req) as -> by congruence.
  split; [|split].
  - exists req. subst f2. rewrite H2. subst f1. rewrite H1. cbn.
    rewrite <- !app_assoc. by repeat split.
  - subst f1. rewrite H1. done.
  - intros g Hne. cbn [step]. destruct (disabled g); [done|].
    by rewrite (handleSubmit_invalid _ Hne).
Qed.

(** While a form is submitting no submit error is shown. *)
Lemma submitting_clean f :
  reachable f -> isSubmitting f = true -> submitError f = None.
Proof.
  induction 1 as [p|f e _ IH]; [done|].
  destruct e as [|key v| |r|i r|]; cbn [step].
  - destruct (disabled f) eqn:Hs; [done|].
    destruct (decide (validate (values f) = ∅)) as [He|Hne].
    + rewrite <- (step_Submit f Hs).
      by destruct (submit_valid f Hs He) as [[_ Hstep]|(req & _ & _ & Hstep)];
        rewrite Hstep.
    + by rewrite (handleSubmit_invalid _ Hne).
  - destruct (disabled f); [done|].
    by destruct (handleChange_keeps key v f) as (_ & -> & -> & _).
  - destruct (disabled f); [done|].
    unfold handleCancel. by destruct (onCancel _).
  - destruct (awaiting f) as [c|]; [|done].
    by destruct (resume_settles (call_finish c r) (set_awaiting None f)) as (-> & _).
  - destruct (earlier f !! i) as [c|]; [|done].
    by destruct (resume_settles (call_finish c r) (set_earlier (delete i (earlier f)) f))
      as (-> & _).
  - done.
Qed.

(** X11.  While [isSubmitting] is true the call of the latest submission
    is in flight and no submit error is shown. *)
Theorem while_submitting f :
  reachable f -> isSubmitting f = true ->
  is_Some (awaiting f) /\ submitError f = None.
Proof.
  intros Hr Hs. split; [by apply (reachable_consistent f Hr)|].
  by apply submitting_clean.
Qed.

(** X12.  A title of white space that is long enough passes the schema and is
    refused by the service: the submission makes a call, sends no request,
    shows "Todo title is required" and leaves the draft and the form open. *)
Theorem blank_title_meets_the_guard f s :
  isSubmitting f = false -> validate (values f) = ∅ ->
  Todo.title (values f) = JStr s -> all_white_space s = true ->
  let f' := step f Submit in
  (exists c, calls f' = calls f ++ [c]) /\
  requests f' = requests f /\
  submitError f' = Some "Todo title is required" /\
  isSubmitting f' = false /\
  values f' = values f /\
  notices f' = notices f.
Proof.
  intros Hs He Ht Hblank f'. subst f'.
  assert (call_start (call_for (given f) (cast_values (values f))) = inl TitleRequired)
    as Hstart.
  { apply blank_call_start with s; [|done]. by rewrite cast_values_fields, Ht. }
  destruct (submit_valid f (idle_enabled f Hs) He) as [[_ ->]|(req & Hreq & _)];
    [|congruence].
  cbn. split; [by eexists|done].
Qed.

(** X13.  A valid draft whose title is not blank is submitted and the store
    answers: one request was sent, the form is back to its default values
    with nothing shown as wrong, and [onSubmitSuccess], when passed, was
    called once, with the todo of the answer. *)
Theorem submit_success_resets f (result : todo) :
  reachable f -> isSubmitting f = false -> validate (values f) = ∅ ->
  empty_or_whitespace (Todo.title (cast_values (values f))) = false ->
  let f' := run f [Submit; Reply (Services.Response result)] in
  (exists req, requests f' = requests f ++ [req]) /\
  values f' = defaultValues (given f) /\
  errors f' = ∅ /\ submitError f' = None /\
  isSubmitting f' = false /\ awaiting f' = None /\
  notices f' =
    notices f ++ (if onSubmitSuccess (given f) then [SubmitSuccess result] else []).
Proof.
  intros Hr Hs He Hblank f'. subst f'. unfold run. cbn [foldl].
  destruct (submit_sends f (idle_enabled f Hs) He Hblank) as (req & Hstart & _ & ->).
  cbn [step awaiting suspend set_awaiting].
  assert (call_finish (call_for (given f) (cast_values (values f)))
            (Services.Response result) = Services.Fulfilled result) as ->.
  { unfold call_for. by destruct (isEditMode (given f)). }
  unfold onSubmit_resume, reset. cbn.
  destruct (onSubmitSuccess (given f)); cbn; (split; [by eexists|]); by rewrite ?app_nil_r.
Qed.

Lemma successes_app l l' : successes (l ++ l') = (successes l + successes l')%nat.
Proof. unfold successes. by rewrite List.filter_app, length_app. Qed.

(** X14.  The successes reported, with the requests still waiting for their
    answer, never outnumber the requests sent, which never outnumber the
    calls made. *)
Theorem successes_requests_calls f :
  reachable f ->
  (successes (notices f) + pending f <= length (requests f))%nat /\
  (length (requests f) <= length (calls f))%nat.
Proof.
  induction 1 as [p|f e Hr [IH1 IH2]]; [by cbn|].
  assert (forall outcome g,
            (successes (notices (onSubmit_resume outcome g)) <= S (successes (notices g)))%nat /\
            awaiting (onSubmit_resume outcome g) = awaiting g /\
            earlier (onSubmit_resume outcome g) = earlier g /\
            requests (onSubmit_resume outcome g) = requests g /\
            calls (onSubmit_resume outcome g) = calls g) as Hresume.
  { intros outcome g. unfold onSubmit_resume, reset.
    destruct outcome; [destruct (onSubmitSuccess _)|];
      cbn [notices awaiting earlier requests calls given notify set_isSubmitted
           setIsSubmitting setSubmitError set_errors set_values];
      rewrite ?successes_app; cbn [successes is_success List.filter length];
      (split; [lia|done]). }
  unfold pending in *.
  destruct e as [|key v| |r|i r|]; cbn [step].
  - destruct (disabled f) eqn:Hs; [lia|].
    destruct (decide (validate (values f) = ∅)) as [He|Hne].
    + rewrite <- (step_Submit f Hs).
      destruct (submit_valid f Hs He) as [[_ Hstep]|(req & _ & _ & Hstep)];
        rewrite Hstep.
      * unfold onSubmit_resume.
        cbn [notices awaiting earlier requests calls set_isSubmitted setIsSubmitting
             setSubmitError set_unrendered record_call resolve set_errors].
        rewrite length_app. cbn [length]. lia.
      * cbn [notices awaiting earlier requests calls suspend set_awaiting set_earlier
             record_request record_call set_unrendered setSubmitError setIsSubmitting
             resolve set_errors].
        rewrite !length_app. cbn [length]. destruct (awaiting f); cbn [length]; lia.
    + rewrite (handleSubmit_invalid _ Hne).
      cbn [notices awaiting earlier requests calls set_isSubmitted resolve set_errors].
      lia.
  - destruct (disabled f); [lia|].
    destruct (handleChange_keeps key v f) as (_ & _ & _ & -> & -> & -> & -> & ->). lia.
  - destruct (disabled f); [lia|].
    unfold handleCancel.
    destruct (onCancel _); fields; [|lia].
    rewrite successes_app. cbn [successes is_success List.filter length]. lia.
  - remember (awaiting f) as a eqn:Ha. destruct a as [c|]; [|rewrite <- Ha; lia].
    destruct (Hresume (call_finish c r) (set_awaiting None f))
      as (Hn & -> & -> & -> & ->). fields. cbn [length] in *. lia.
  - destruct (earlier f !! i) as [c|] eqn:Hi; [|lia].
    destruct (Hresume (call_finish c r) (set_earlier (delete i (earlier f)) f))
      as (Hn & -> & -> & -> & ->). fields.
    apply lookup_lt_Some in Hi. rewrite length_delete by by apply lookup_lt_is_Some_2.
    lia.
  - fields. lia.
Qed.

(** A form given neither callback never calls back. *)
Lemma silent_form f :
  reachable f -> onSubmitSuccess (given f) = false -> onCancel (given f) = false ->
  notices f = [].
Proof.
  induction 1 as [p|f e _ IH]; [done|].
  destruct (step_logs f e) as [-> _]. intros Hs Hc. specialize (IH Hs Hc).
  assert (forall outcome g, given g = given f -> notices g = [] ->
                            notices (onSubmit_resume outcome g) = []) as Hresume.
  { intros outcome g Hg Hn. unfold onSubmit_resume.
    destruct outcome; cbn; [|done]. by rewrite Hg, Hs. }
  destruct e as [|key v| |r|i r|]; cbn [step].
  - destruct (disabled f) eqn:Hsub; [done|].
    destruct (decide (validate (values f) = ∅)) as [He|Hne].
    + rewrite <- (step_Submit f Hsub).
      destruct (submit_valid f Hsub He) as [[_ Hstep]|(req & _ & _ & Hstep)];
        rewrite Hstep; [by apply Hresume|done].
    + by rewrite (handleSubmit_invalid _ Hne).
  - destruct (disabled f); [done|].
    by destruct (handleChange_keeps key v f) as (_ & _ & _ & _ & _ & _ & _ & ->).
  - destruct (disabled f); [done|]. unfold handleCancel. cbn. by rewrite Hc.
  - destruct (awaiting f) as [c|]; [|done]. by apply Hresume.
  - destruct (earlier f !! i) as [c|]; [|done]. by apply Hresume.
  - done.
Qed.

Lemma run_app f es es' : run (run f es) es' = run f (es ++ es').
Proof. unfold run. by rewrite foldl_app. Qed.

Lemma run_changes p edits v :
  Forall is_change edits ->
  exists v', run (set_values v (mount p)) edits = set_values v' (mount p).
Proof.
  intros Hedits. revert v.
  induction Hedits as [|e edits (key & x & ->) _ IH]; intros v; [by exists v|].
  destruct (IH (Todo.set key x v)) as [v' Hv']. exists v'. by rewrite <- Hv'.
Qed.

(** X15.  Whatever is typed into a fresh form, Cancel undoes it: the form is as
    first rendered, but for the call of [onCancel] when there is one; no
    service call was made. *)
Theorem edits_then_cancel p edits :
  Forall is_change edits ->
  run (mount p) (edits ++ [Cancel]) =
    if onCancel p then notify Cancelled (mount p) else mount p.
Proof.
  intros Hedits.
  destruct (run_changes p edits (defaultValues p) Hedits) as [v Hv].
  rewrite <- run_app.
  change (set_values (defaultValues p) (mount p)) with (mount p) in Hv. rewrite Hv.
  unfold run. cbn. unfold handleCancel. cbn. by destruct (onCancel p).
Qed.
End WithEngine.
Lemma blank_reachable : reachable (E := Sample.engine) Cases.blank.
Proof. exact (reachable_step _ _ (reachable_mount Sample.addProps)). Qed.

Lemma requests_are_sendable_witness :
  reachable (E := Sample.engine) Sample.submitted /\
  Services.Post "/todos" Sample.buyMilk ∈ requests Sample.submitted /\
  sendable (E := Sample.engine) (Services.Post "/todos" Sample.buyMilk) /\
  isEditMode (given Sample.submitted) = false.
Proof.
  assert (Services.Post "/todos" Sample.buyMilk ∈ requests Sample.submitted) as Hin
    by (apply list_elem_of_singleton; reflexivity).
  split; [exact submitted_reachable|]. split; [exact Hin|].
  exact (requests_are_sendable (E := Sample.engine) Sample.submitted _
           submitted_reachable Hin).
Defined.

Lemma only_the_title_guard_fires_witness :
  let f := step (E := Sample.engine) Cases.blank Submit in
  reachable (E := Sample.engine) f /\
  AddTodo Cases.spaces ∈ calls f /\
  call_start (E := Sample.engine) (AddTodo Cases.spaces) = inl TitleRequired /\
  exists data s, (AddTodo Cases.spaces = AddTodo data \/
                  exists id, AddTodo Cases.spaces = UpdateTodo id data) /\
                 Todo.title data = JStr s /\ all_white_space s = true.
Proof.
  intros f.
  assert (reachable (E := Sample.engine) f) as Hr
    by exact (reachable_step _ _ blank_reachable).
  assert (AddTodo Cases.spaces ∈ calls f) as Hin
    by (apply list_elem_of_singleton; reflexivity).
  split; [exact Hr|]. split; [exact Hin|]. split; [reflexivity|].
  exact (proj2 (only_the_title_guard_fires (E := Sample.engine) f _ _ Hr Hin eq_refl)).
Defined.

Lemma second_submit_calls_again_witness :
  let f2 := run (E := Sample.engine) Sample.typed [Submit; Submit] in
  isSubmitting Sample.typed = false /\
  validate (E := Sample.engine) (values Sample.typed) = ∅ /\
  isSubmitting Sample.submitted = true /\
  awaiting Sample.submitted = Some (AddTodo Sample.buyMilk) /\
  calls f2 = [AddTodo Sample.buyMilk; AddTodo Sample.buyMilk] /\
  requests f2 = [Services.Post "/todos" Sample.buyMilk; Services.Post "/todos" Sample.buyMilk].
Proof.
  intros f2.
  assert (validate (E := Sample.engine) (values Sample.typed) = ∅) as He by reflexivity.
  destruct (second_submit_calls_again (E := Sample.engine) Sample.typed eq_refl He eq_refl)
    as [(req & Hstart & _ & _ & Hs1 & Ha1 & Hc2 & Hr2 & _) _].
  assert (req = Services.Post "/todos" Sample.buyMilk) as ->
    by (injection Hstart as <-; reflexivity).
  split; [reflexivity|]. split; [exact He|]. split; [exact Hs1|]. split; [exact Ha1|].
  split; [exact Hc2|exact Hr2].
Defined.

Lemma while_submitting_witness :
  reachable (E := Sample.engine) Sample.submitted /\
  isSubmitting Sample.submitted = true /\
  is_Some (awaiting Sample.submitted) /\
  submitError Sample.submitted = None.
Proof.
  destruct (while_submitting (E := Sample.engine) Sample.submitted
              submitted_reachable eq_refl) as (Ha & Herr).
  split; [exact submitted_reachable|]. split; [reflexivity|].
  split; [exact Ha|exact Herr].
Defined.

Lemma blank_title_meets_the_guard_witness :
  isSubmitting Cases.blank = false /\
  validate (E := Sample.engine) (values Cases.blank) = ∅ /\
  Todo.title (values Cases.blank) = JStr "   " /\
  all_white_space "   " = true /\
  requests (step (E := Sample.engine) Cases.blank Submit) = [] /\
  submitError (step (E := Sample.engine) Cases.blank Submit)
    = Some "Todo title is required".
Proof.
  assert (validate (E := Sample.engine) (values Cases.blank) = ∅) as He by reflexivity.
  destruct (blank_title_meets_the_guard (E := Sample.engine) Cases.blank "   "
              eq_refl He eq_refl eq_refl) as (_ & Hreq & Herr & _).
  split; [reflexivity|]. split; [exact He|]. split; [reflexivity|].
  split; [reflexivity|]. split; [exact Hreq|exact Herr].
Defined.

Lemma submit_success_resets_witness :
  let f' := run (E := Sample.engine) Sample.typed
              [Submit; Reply (Services.Response Sample.created)] in
  reachable (E := Sample.engine) Sample.typed /\
  isSubmitting Sample.typed = false /\
  validate (E := Sample.engine) (values Sample.typed) = ∅ /\
  empty_or_whitespace
    (Todo.title (cast_values (E := Sample.engine) (values Sample.typed))) = false /\
  values f' = emptyDefaults /\
  notices f' = [SubmitSuccess Sample.created].
Proof.
  intros f'.
  assert (validate (E := Sample.engine) (values Sample.typed) = ∅) as He by reflexivity.
  destruct (submit_success_resets (E := Sample.engine) Sample.typed Sample.created
              typed_reachable eq_refl He eq_refl) as (_ & Hv & _ & _ & _ & _ & Hn).
  split; [exact typed_reachable|]. split; [reflexivity|]. split; [exact He|].
  split; [reflexivity|]. split; [exact Hv|exact Hn].
Defined.

Lemma successes_requests_calls_witness :
  reachable (E := Sample.engine) Sample.submitted /\
  (successes (notices Sample.submitted) + pending Sample.submitted
     <= length (requests Sample.submitted))%nat /\
  (length (requests Sample.submitted) <= length (calls Sample.submitted))%nat.
Proof.
  split; [exact submitted_reachable|].
  exact (successes_requests_calls (E := Sample.engine) Sample.submitted submitted_reachable).
Defined.

Lemma edits_then_cancel_witness :
  let edits := [Change "title" (JStr "Buy milk"); Change "userId" (JStr "3")] in
  Forall is_change edits /\
  run (E := Sample.engine) (mount Sample.addProps) (edits ++ [Cancel])
    = notify Cancelled (mount Sample.addProps).
Proof.
  intros edits.
  assert (Forall is_change edits) as Hedits
    by (repeat constructor; by eexists _, _).
  split; [exact Hedits|].
  exact (edits_then_cancel (E := Sample.engine) Sample.addProps edits Hedits).
Defined.
End FormMore.

(** ** The form without a schema *)

Module WithoutYupMore.
Import Js Spec Terms JsFacts ServicesFacts FormMore.
Import Todo (todo).
Import TodoForm (form, call, AddTodo, UpdateTodo, given, values, isSubmitting, submitError,
                 awaiting, calls, requests, notices, call_start).
Import TodoFormWithoutYup.

Section WithEngine.
Context {E : JsEngine}.

Lemma long_trim_passes s :
  (Yup.length_of (trim s) <? 3) = false -> Services.title_guard (JStr s) = None.
Proof.
  intros Hlen. unfold Services.title_guard.
  assert (trim s <> "") as Hne.
  { intros Ht. rewrite Ht in Hlen. done. }
  assert (s <> "") as Hs by (by intros ->).
  cbn. rewrite (proj2 (String.eqb_neq _ _) Hs). cbn.
  by rewrite (proj2 (String.eqb_neq _ _) Hne).
Qed.

(** X16.  [onSubmit] of the form without schema, by the title it is given.
    A title that is falsy, or a string of fewer than 3 code units once
    trimmed, is refused: no call, the fixed message, not submitting.  A
    string of 3 code units or more once trimmed is sent: one call that
    reaches the store, neither guard of the service being able to fire,
    with [userId] sent as [Number(userId)], or as 1 when that is NaN or 0.
    For a truthy title that is no string the error of [trim] escapes, and
    the form is left submitting with no call made. *)
Theorem refuses_sends_or_escapes (data : todo) (f : form) :
  (truthy (Todo.title data) = false \/
   (exists s, Todo.title data = JStr s /\ Yup.length_of (trim s) < 3) ->
   exists f',
     onSubmit data f = Completed f' /\
     calls f' = calls f /\ requests f' = requests f /\
     submitError f' = Some tooShort /\ isSubmitting f' = false /\
     awaiting f' = awaiting f /\ values f' = values f /\ notices f' = notices f) /\
  (forall s, Todo.title data = JStr s -> 3 <= Yup.length_of (trim s) ->
   exists f' c req payload,
     onSubmit data f = Completed f' /\
     calls f' = calls f ++ [c] /\ requests f' = requests f ++ [req] /\
     call_start c = inr req /\ awaiting f' = Some c /\
     isSubmitting f' = true /\ submitError f' = None /\
     (if TodoForm.isEditMode (given f)
      then req = Services.Put
                   ("/todos/" +:+ to_string (TodoForm.initialData_id (given f))) payload /\
           Todo.id payload = TodoForm.initialData_id (given f)
      else req = Services.Post "/todos" payload) /\
     Todo.title payload = JStr s /\
     Todo.userId payload =
       (if truthy (JNum (Number (Todo.userId data)))
        then JNum (Number (Todo.userId data)) else num 1) /\
     Todo.completed payload =
       (if truthy (Todo.completed data) then Todo.completed data else JBool false)) /\
  (truthy (Todo.title data) = true -> (forall s, Todo.title data <> JStr s) ->
   exists e f',
     onSubmit data f = Uncaught e f' /\
     isSubmitting f' = true /\ calls f' = calls f /\ requests f' = requests f).
Proof.
  unfold onSubmit, payload_of.
  cbn [Todo.title Todo.set_userId].
  split; [|split].
  - intros Hshort.
    assert (negb (truthy (Todo.title data)) = true \/
            exists s, Todo.title data = JStr s /\ truthy (Todo.title data) = true /\
                      (Yup.length_of (trim s) <? 3) = true) as [Hfalsy|(s & Hs & Ht & Hlen)].
    { destruct (truthy (Todo.title data)) eqn:Ht; [|by left].
      destruct Hshort as [[=]|(s & Hs & Hlen)]. right. exists s.
      split; [done|]. split; [done|]. by apply Z.ltb_lt. }
    + rewrite Hfalsy. by eexists.
    + rewrite Ht, Hs, Hlen. by eexists.
  - intros s Hs Hlen.
    assert ((Yup.length_of (trim s) <? 3) = false) as Hlong by by apply Z.ltb_ge.
    assert (truthy (JStr s) = true) as Ht.
    { cbn. destruct (String.eqb_spec s "") as [->|]; [|done]. by cbn in Hlen. }
    rewrite Hs, Ht, Hlong. lazy beta iota zeta delta [negb].
    cbn [given TodoForm.setSubmitError TodoForm.setIsSubmitting TodoForm.set_unrendered].
    rewrite <- Hs. set (payload := Todo.set_userId _ data).
    assert (Services.title_guard (Todo.title payload) = None) as Hguard.
    { subst payload. cbn [Todo.title Todo.set_userId]. rewrite Hs.
      by apply long_trim_passes. }
    destruct (TodoForm.isEditMode (given f)) eqn:Hmode.
    + set (id := TodoForm.initialData_id (given f)).
      assert (call_start (UpdateTodo id payload)
              = inr (Services.Put ("/todos/" +:+ to_string id)
                       (Services.updateTodo_payload id payload))) as Hstart.
      { cbn [call_start]. unfold Services.updateTodo_start.
        by rewrite (truthy_not_nullish id (edit_mode_id _ Hmode)), Hguard. }
      rewrite Hstart.
      eexists _, (UpdateTodo id payload), _, (Services.updateTodo_payload id payload).
      split; [done|]. cbn. unfold or. by repeat split.
    + assert (call_start (AddTodo payload)
              = inr (Services.Post "/todos" (Services.addTodo_payload payload))) as Hstart.
      { cbn [call_start]. unfold Services.addTodo_start. by rewrite Hguard. }
      rewrite Hstart.
      eexists _, (AddTodo payload), _, (Services.addTodo_payload payload).
      split; [done|]. cbn. unfold or. by repeat split.
  - intros Ht Hno.
    destruct (Todo.title data) as [| |b|n|s]; try discriminate Ht;
      [| |by destruct (Hno s)];
      rewrite Ht; lazy beta iota zeta delta [negb]; by eexists _, _.
Qed.
End WithEngine.
End WithoutYupMore.

(** ** Pages *)

Module PagesMore.
Import Js Spec Terms JsFacts ServicesFacts SchemaMore FormFacts FormMore.
Import Todo (todo).
Import Services (request, reply, Response, Failure, Get, Put, Post, Fulfilled, Rejected).
Import Views.

Section WithEngine.
Context {E : JsEngine}.

(** The line a page shows for a failure of the store. *)
Lemma failure_line {A} unknown (e : Services.axios_error) (content : A) :
  unknown <> "" ->
  render false (Some (Services.message_or_text (Services.normalize unknown e))) content
    = ErrorLine (Services.message (Services.normalize unknown e)).
Proof.
  intros Hu. pose proof (normalize_message unknown e Hu) as Hne.
  unfold render, Services.message_or_text, Services.or_text.
  by rewrite (proj2 (String.eqb_neq _ _) Hne), (proj2 (String.eqb_neq _ _) Hne).
Qed.

(** X17.  The list page makes one request, [GET /todos], and once it is
    answered shows the rows of the answer, or else the line of the failure,
    which is never empty; it is not left loading. *)
Theorem list_page_shows_the_answer (store : request -> reply (list todo)) :
  (Services.getTodos store).1 = [Get "/todos"] /\
  TodosListPage_render (TodosListPage_load store) =
    match store (Get "/todos") with
    | Response l => Content l
    | Failure e =>
        ErrorLine (Services.message (Services.normalize "Unknown error fetching todos" e))
    end /\
  TodosListPage_render (TodosListPage_load store) <> Loading /\
  TodosListPage_render (TodosListPage_load store) <> ErrorLine "".
Proof.
  split; [done|].
  assert (TodosListPage_render (TodosListPage_load store) =
            match store (Get "/todos") with
            | Response l => Content l
            | Failure e =>
                ErrorLine (Services.message
                             (Services.normalize "Unknown error fetching todos" e))
            end) as Hshown.
  { unfold TodosListPage_render, TodosListPage_load, Services.getTodos,
      Services.getTodos_request.
    cbn [snd]. destruct (store (Get "/todos")) as [l|e]; [done|].
    cbn. by apply failure_line. }
  split; [exact Hshown|]. rewrite Hshown.
  destruct (store (Get "/todos")) as [l|e]; [done|].
  split; [done|]. intros [= Hm]. by apply normalize_message in Hm.
Qed.

(** X18.  On a route with a truthy [id] the edit page makes one request, [GET
    /todos/<id>] (the id guard of [getTodoById] cannot fire), and shows the
    form seeded with the answer, or the line of the failure; on a route
    without, it makes none and shows the empty form at once.  In both cases
    the form is given neither [onSubmitSuccess] nor [onCancel]. *)
Theorem form_page_shows_the_answer (store : request -> reply todo) (id : jsval) :
  TodoFormPage_effect id =
    (if TodoFormPage.isEditMode id then Some (inr (Get ("/todos/" +:+ to_string id)))
     else None) /\
  TodoFormPage_render (TodoFormPage_load store id) =
    (if TodoFormPage.isEditMode id
     then match store (Get ("/todos/" +:+ to_string id)) with
          | Response t =>
              Content {| TodoForm.initialData := Some t;
                         TodoForm.onSubmitSuccess := false; TodoForm.onCancel := false |}
          | Failure e =>
              ErrorLine (Services.message (Services.normalize "Unknown error fetching todo" e))
          end
     else Content {| TodoForm.initialData := None;
                     TodoForm.onSubmitSuccess := false; TodoForm.onCancel := false |}).
Proof.
  unfold TodoFormPage_effect, TodoFormPage_render, TodoFormPage_load,
    TodoFormPage.isEditMode, Services.getTodoById, Services.getTodoById_start.
  destruct (truthy id) eqn:Hid.
  - rewrite (truthy_not_nullish _ Hid). split; [done|]. cbn [snd].
    destruct (store _) as [t|e]; [by cbn; rewrite ?Hid|].
    cbn. by apply failure_line.
  - split; [done|]. unfold TodoFormPage.mount, TodoFormPage.isEditMode.
    cbn. by rewrite Hid.
Qed.

(** X19.  The form on the add and edit page never calls back: the page passes
    its handler as [onSuccess], the form reads [onSubmitSuccess], so
    whatever happens in the form, [handleFormSubmit] and its [navigate('/')]
    are not run. *)
Theorem page_form_never_calls_back (s : TodoFormPage.page) (f : TodoForm.form) :
  TodoForm.reachable f -> TodoForm.given f = TodoFormPage_props s ->
  TodoForm.notices f = [].
Proof. intros Hr Hg. apply silent_form; [done|by rewrite Hg..]. Qed.

(** X20.  After their teardown the list page and [App] drop whatever the load
    brings, any number of times. *)
Theorem list_views_drop_late_results
    (outcomes : list (Services.settled (list todo)))
    (s : TodosListPage.page) (a : App.app) :
  foldl (fun s o => TodosListPage.settle o s) (TodosListPage.unmount s) outcomes
    = TodosListPage.unmount s /\
  foldl (fun a o => App.settle o a) (App.unmount a) outcomes = App.unmount a.
Proof.
  induction outcomes as [|o outcomes [IHs IHa]]; [done|]. cbn [foldl].
  assert (TodosListPage.settle o (TodosListPage.unmount s) = TodosListPage.unmount s)
    as -> by by destruct o.
  assert (App.settle o (App.unmount a) = App.unmount a) as -> by by destruct o.
  done.
Qed.

(** X21.  The form of the edit page, submitted as it was loaded, writes to the
    todo it was given: the request is a [PUT] to the URL of the loaded
    todo's own [id], not of the route's, with the todo as payload; when
    that [id] is falsy the form is in add mode and the request is a [POST]
    that creates a todo. *)
Theorem edit_page_submits_the_loaded_todo
    (store : request -> reply todo) (id : jsval) (t : todo) :
  truthy id = true -> store (Get ("/todos/" +:+ to_string id)) = Response t ->
  well_typed t -> empty_or_whitespace (Todo.title t) = false ->
  let f := TodoForm.mount (TodoFormPage_props (TodoFormPage_load store id)) in
  TodoForm.requests (TodoForm.step f TodoForm.Submit) =
    [if truthy (Todo.id t)
     then Put ("/todos/" +:+ to_string (Todo.id t)) t
     else Post "/todos" (Todo.set "id" JUndefined t)].
Proof.
  intros Hid Hstore Ht Htitle f.
  assert (TodoFormPage_props (TodoFormPage_load store id) =
            {| TodoForm.initialData := Some t; TodoForm.onSubmitSuccess := false;
               TodoForm.onCancel := false |}) as Hprops.
  { unfold TodoFormPage_load, TodoFormPage.isEditMode, Services.getTodoById,
      Services.getTodoById_start.
    rewrite Hid, (truthy_not_nullish _ Hid). cbn [snd]. by rewrite Hstore. }
  subst f. rewrite Hprops. clear Hprops.
  set (p := {| TodoForm.initialData := Some t; TodoForm.onSubmitSuccess := false;
               TodoForm.onCancel := false |}).
  destruct (well_typed_accepted t Ht) as [Ha Hcast].
  apply validate_empty_accepted in Ha.
  rewrite (step_Submit (TodoForm.mount p) eq_refl).
  rewrite handleSubmit_valid by exact Ha.
  change (TodoForm.values _) with t. rewrite Hcast.
  set (g := TodoForm.resolve _).
  destruct (payload_well_typed t Ht) as (Hadd & Hupd & _).
  destruct (onSubmit_cases t g) as [_ Hcases].
  change (TodoForm.given g) with p in Hcases.
  change (TodoForm.requests g) with (@nil request) in Hcases.
  change (TodoForm.isEditMode p) with (truthy (Todo.id t)) in Hcases.
  change (TodoForm.initialData_id p) with (Todo.id t) in Hcases.
  assert (TodoForm.call_start
            (if truthy (Todo.id t) then TodoForm.UpdateTodo (Todo.id t) t
             else TodoForm.AddTodo t) =
          inr (if truthy (Todo.id t)
               then Put ("/todos/" +:+ to_string (Todo.id t)) t
               else Post "/todos" (Todo.set "id" JUndefined t))) as Hstart.
  { pose proof Ht as (s & _ & _ & Hs & _).
    destruct (truthy (Todo.id t)) eqn:Htid; cbn [TodoForm.call_start].
    - unfold Services.updateTodo_start.
      rewrite (truthy_not_nullish _ Htid), title_guard_cases, Htitle, Hupd, Hs.
      by destruct t.
    - unfold Services.addTodo_start.
      by rewrite title_guard_cases, Htitle, Hadd, Hs. }
  rewrite Hstart in Hcases.
  destruct Hcases as [(req & [= <-] & _ & _ & ->)|(error & [=] & _)]. done.
Qed.
End WithEngine.

Lemma page_form_never_calls_back_witness :
  let page := TodoFormPage.mount JUndefined in
  let f := TodoForm.run (E := Sample.engine) (TodoForm.mount (TodoFormPage_props page))
             [TodoForm.Change "title" (JStr "Buy milk"); TodoForm.Submit;
              TodoForm.Reply (Response Sample.created)] in
  TodoForm.reachable (E := Sample.engine) f /\
  TodoForm.given f = TodoFormPage_props page /\
  TodoForm.requests f = [Services.Post "/todos" Sample.buyMilk] /\
  TodoForm.notices f = [].
Proof.
  intros page f.
  assert (TodoForm.reachable (E := Sample.engine) f) as Hr.
  { exact (TodoForm.reachable_step _ _
             (TodoForm.reachable_step _ _
                (TodoForm.reachable_step _ _
                   (TodoForm.reachable_mount (TodoFormPage_props page))))). }
  split; [exact Hr|]. split; [reflexivity|]. split; [reflexivity|].
  exact (page_form_never_calls_back (E := Sample.engine) page f Hr eq_refl).
Defined.
Lemma edit_page_submits_the_loaded_todo_witness :
  let store := fun _ : request => Response Cases.zeroth in
  let f := TodoForm.mount
             (TodoFormPage_props (TodoFormPage_load (E := Sample.engine) store (JStr "0"))) in
  truthy (JStr "0") = true /\ well_typed Cases.zeroth /\
  TodoForm.requests (TodoForm.step (E := Sample.engine) f TodoForm.Submit) =
    [Post "/todos" (Todo.set "id" JUndefined Cases.zeroth)].
Proof.
  intros store f.
  assert (well_typed Cases.zeroth) as Ht.
  { exists "delectus aut autem", false, (Fin (inject_Z 1)).
    split; [reflexivity|]. split; [split; discriminate|]. by repeat split. }
  split; [reflexivity|]. split; [exact Ht|].
  exact (edit_page_submits_the_loaded_todo (E := Sample.engine) store (JStr "0")
           Cases.zeroth eq_refl eq_refl Ht eq_refl).
Defined.
End PagesMore.

(** ** App, event by event *)

Module AppMore.
Import Js Spec Terms JsFacts AppFacts.
Import Todo (todo).
Import Services (Fulfilled, Rejected).
Import App AppEvents.

(** X22.  A todo is being edited only while the form is shown, after the load
    has settled, and it is one of the rows of the list. *)
Theorem edited_todo_is_a_row st t :
  reachable st -> editingTodo (now st) = Some t ->
  showForm (now st) = true /\ loading (now st) = false /\ t ∈ todos (now st).
Proof. intros Hr. apply (proj1 (reachable_app_invariant st Hr)). Qed.

Lemma edited_todo_is_a_row_witness :
  let st := run start [Settle (Fulfilled [Sample.first; Sample.second]); ClickEdit 1] in
  reachable st /\ editingTodo (now st) = Some Sample.second /\
  showForm (now st) = true /\ loading (now st) = false /\
  Sample.second ∈ todos (now st).
Proof.
  intros st.
  assert (reachable st) as Hr
    by exact (reachable_step _ _ (reachable_step _ _ reachable_start)).
  split; [exact Hr|]. split; [reflexivity|].
  exact (edited_todo_is_a_row st Sample.second Hr eq_refl).
Defined.

(** X23.  When the form opened with "+ Add New Todo" is submitted twice
    before it is rendered as submitting, both submits hold the list of the
    same render: the first answer puts its todo in front of that list, and
    the second answer puts its todo in front of that list again, so the
    todo of the first answer is gone. *)
Theorem second_answer_drops_the_first st (a b : todo) :
  mounted (now st) = true -> showForm (now st) = true -> editingTodo (now st) = None ->
  let i := length (captured st) in
  let st1 := run st [FormSubmit; FormSubmit; FormSuccess i a] in
  let st2 := step st1 (FormSuccess i b) in
  todos (now st1) = a :: todos (now st) /\
  captured st1 = captured st ++ [now st] /\
  todos (now st2) = b :: todos (now st) /\
  captured st2 = captured st.
Proof.
  intros Hm Hs He i st1 st2.
  assert (run st [FormSubmit; FormSubmit]
          = {| now := now st; captured := captured st ++ [now st; now st] |}) as Htwice.
  { unfold run. cbn [foldl]. rewrite (step_FormSubmit st Hm Hs).
    rewrite step_FormSubmit by done. cbn [now captured]. by rewrite <- app_assoc. }
  assert (st1 = {| now := late_onSubmitSuccess a (now st) (now st);
                   captured := captured st ++ [now st] |}) as H1.
  { subst st1. change (run st [FormSubmit; FormSubmit; FormSuccess i a])
      with (step (run st [FormSubmit; FormSubmit]) (FormSuccess i a)).
    rewrite Htwice. erewrite step_FormSuccess; [|done|].
    - cbn [now captured]. f_equal. subst i.
      rewrite delete_middle. done.
    - cbn [captured]. by apply list_lookup_middle. }
  assert (st2 = {| now := late_onSubmitSuccess b (now st) (now st1);
                   captured := captured st |}) as H2.
  { subst st2. erewrite step_FormSuccess.
    - rewrite H1. cbn [now captured]. f_equal. subst i.
      replace (captured st ++ [now st]) with (captured st ++ now st :: []) by done.
      rewrite delete_middle. by rewrite app_nil_r.
    - by rewrite H1.
    - rewrite H1. cbn [captured]. by apply list_lookup_middle. }
  rewrite H2, H1. cbn [now captured].
  unfold late_onSubmitSuccess, onSubmitSuccess. rewrite He. by cbn.
Qed.

Lemma second_answer_drops_the_first_witness :
  let st := run start [Settle (Fulfilled [Sample.first; Sample.second]); ClickAdd] in
  let sent := {| Todo.id := num 201; Todo.title := JStr "Buy bread";
                 Todo.completed := JBool false; Todo.userId := num 1 |} in
  mounted (now st) = true /\ showForm (now st) = true /\ editingTodo (now st) = None /\
  todos (now (run st [FormSubmit; FormSubmit; FormSuccess 0 Sample.created]))
    = [Sample.created; Sample.first; Sample.second] /\
  todos (now (run st [FormSubmit; FormSubmit; FormSuccess 0 Sample.created;
                      FormSuccess 0 sent]))
    = [sent; Sample.first; Sample.second].
Proof.
  intros st sent.
  destruct (second_answer_drops_the_first st Sample.created sent eq_refl eq_refl eq_refl)
    as (H1 & _ & H2 & _).
  split; [reflexivity|]. split; [reflexivity|]. split; [reflexivity|].
  split; [exact H1|exact H2].
Defined.

(** X24.  When the form is submitted while the list is still loading, the rows
    the load then brings are lost with the answer of the store: its handler
    still holds the list of the render the submit started in, and the list
    shown becomes the new todo in front of that one, whatever was loaded. *)
Theorem rows_loaded_under_a_submit_are_lost st data newTodo :
  reachable st -> loading (now st) = true -> mounted (now st) = true ->
  showForm (now st) = true ->
  let i := length (captured st) in
  let st' := run st [FormSubmit; Settle (Fulfilled data); FormSuccess i newTodo] in
  todos (now (run st [FormSubmit; Settle (Fulfilled data)])) = data /\
  todos (now st') = newTodo :: todos (now st) /\
  loading (now st') = false /\ showForm (now st') = false.
Proof.
  intros Hr Hl Hm Hs i st'.
  assert (editingTodo (now st) = None) as He.
  { destruct (editingTodo (now st)) as [t|] eqn:He; [|done].
    destruct (proj1 (reachable_app_invariant st Hr) t He) as (_ & Hl' & _).
    congruence. }
  subst st'. unfold run. cbn [foldl].
  rewrite (step_FormSubmit st Hm Hs).
  rewrite step_Settle by done. cbn [now with_now captured].
  assert (settle (Fulfilled data) (now st) = setLoading false (setTodos data (now st)))
    as -> by (unfold settle; rewrite Hm; cbn [mounted setTodos]; by rewrite Hm).
  split; [done|].
  erewrite step_FormSuccess; [|done|].
  - cbn [now captured]. unfold late_onSubmitSuccess, onSubmitSuccess. rewrite He. by cbn.
  - cbn [captured]. by apply list_lookup_middle.
Qed.

Lemma rows_loaded_under_a_submit_are_lost_witness :
  let st := run start [ClickAdd] in
  let data := [Sample.first; Sample.second] in
  let st' := run st [FormSubmit; Settle (Fulfilled data); FormSuccess 0 Sample.created] in
  reachable st /\ loading (now st) = true /\ mounted (now st) = true /\
  showForm (now st) = true /\
  todos (now (run st [FormSubmit; Settle (Fulfilled data)])) = data /\
  todos (now st') = [Sample.created] /\
  loading (now st') = false /\ showForm (now st') = false.
Proof.
  intros st data st'.
  assert (reachable st) as Hr by exact (reachable_step _ _ reachable_start).
  split; [exact Hr|]. do 3 (split; [reflexivity|]).
  exact (rows_loaded_under_a_submit_are_lost st data Sample.created
           Hr eq_refl eq_refl eq_refl).
Defined.
End AppMore.

(** ** The todo reducer *)

Module ReducerMore.
Import Js JsFacts.
Import TodoReducerExample.

Lemma id_is_itself z : strict_eq (num z) (num z) = true.
Proof. cbn. by apply Qeq_bool_iff. Qed.

Lemma boolean_rows s :
  reachable s -> Forall (fun todo => exists b, completed todo = JBool b) (todos s).
Proof.
  induction 1 as [|s a _ IH].
  - repeat constructor; by eexists.
  - destruct a as [payload now|payload|payload|payload|]; cbn [todoReducer todos]; try done.
    + apply Forall_app. split; [done|]. repeat constructor. by eexists.
    + rewrite Forall_forall in IH |- *.
      intros todo [Hin _]%list_elem_of_In%filter_In. by apply IH, list_elem_of_In.
    + rewrite Forall_forall in IH |- *.
      intros todo (t & <- & Hin)%list_elem_of_In%in_map_iff.
      destruct (strict_eq (id t) payload); [by eexists|by apply IH, list_elem_of_In].
Qed.

Lemma filter_fresh {A} (keep : A -> bool) l :
  Forall (fun x => keep x = true) l -> List.filter keep l = l.
Proof. induction 1 as [|x l Hx _ IH]; [done|]. cbn. by rewrite Hx, IH. Qed.

Lemma map_fresh {A} (change : A -> A) l :
  Forall (fun x => change x = x) l -> map change l = l.
Proof. induction 1 as [|x l Hx _ IH]; [done|]. cbn. by rewrite Hx, IH. Qed.

(** X25.  The checkbox of a row is an involution: dispatching [TOGGLE_TODO]
    twice with the same payload, whatever it is, gives the state back. *)
Theorem toggle_twice s payload :
  reachable s ->
  todoReducer (todoReducer s (TOGGLE_TODO payload)) (TOGGLE_TODO payload) = s.
Proof.
  intros Hrows%boolean_rows. destruct s as [rows shown].
  cbn [todoReducer todos filter] in *. f_equal.
  rewrite map_map. apply map_fresh.
  eapply Forall_impl; [exact Hrows|]. intros [i t c] [b Hb]. cbn in *. subst c.
  destruct (strict_eq i payload) eqn:Hi; cbn; rewrite Hi; [|done].
  by destruct b.
Qed.

(** X26.  [handleAddTodo] adds nothing for text that is blank, and for any
    other text it adds one row at the end, not completed, with the clock
    reading as its id and the text as typed, and leaves the filter alone.
    Deleting that row again is a round trip when no other row has the
    clock reading as its id. *)
Theorem add_then_delete s input now :
  (all_white_space input = true -> handleAddTodo input now s = s) /\
  (all_white_space input = false ->
   handleAddTodo input now s =
     {| todos := todos s ++
                   [{| id := num now; text := JStr input; completed := JBool false |}];
        filter := filter s |}) /\
  (all_white_space input = false ->
   Forall (fun todo => strict_eq (id todo) (num now) = false) (todos s) ->
   todoReducer (handleAddTodo input now s) (REMOVE_TODO (num now)) = s).
Proof.
  unfold handleAddTodo. cbn [truthy]. rewrite trim_eqb.
  split; [by intros ->|]. split; [by intros ->|].
  intros -> Hfresh. cbn [negb].
  destruct s as [rows shown]. cbn [todoReducer todos filter] in *. f_equal.
  rewrite List.filter_app. cbn [List.filter id]. rewrite id_is_itself.
  cbn [negb]. rewrite app_nil_r. apply filter_fresh.
  eapply Forall_impl; [exact Hfresh|].
  by intros todo ->.
Qed.

(** X27.  Two rows added at the same clock reading share their id: the checkbox
    of either toggles both, and Delete of either removes both. *)
Theorem same_millisecond s first second now :
  let twice := todoReducer (todoReducer s (ADD_TODO first now)) (ADD_TODO second now) in
  todos (todoReducer twice (TOGGLE_TODO (num now))) =
    todos (todoReducer s (TOGGLE_TODO (num now))) ++
      [{| id := num now; text := first; completed := JBool true |};
       {| id := num now; text := second; completed := JBool true |}] /\
  todoReducer twice (REMOVE_TODO (num now)) = todoReducer s (REMOVE_TODO (num now)).
Proof.
  intros twice. subst twice. destruct s as [rows shown].
  cbn [todoReducer todos filter]. split.
  - rewrite <- app_assoc, map_app. cbn [map app id text completed truthy negb].
    by rewrite id_is_itself.
  - f_equal. rewrite <- app_assoc, List.filter_app. cbn [List.filter app id].
    rewrite id_is_itself. cbn [negb]. by rewrite app_nil_r.
Qed.

(** X28.  The three views: "completed" and "active" split the rows between
    them, each row in one of the two; any
    other filter, "all" among them, shows every row.  Setting the filter
    changes no row. *)
Theorem filters_split_the_rows s :
  let view := fun shown => filteredTodos (todoReducer s (SET_FILTER shown)) in
  view (JStr "completed") ++ view (JStr "active") ≡ₚ todos s /\
  (forall todo, todo ∈ view (JStr "completed") -> todo ∉ view (JStr "active")) /\
  (forall shown, strict_eq shown (JStr "completed") = false ->
                 strict_eq shown (JStr "active") = false -> view shown = todos s) /\
  (forall shown, todos (todoReducer s (SET_FILTER shown)) = todos s).
Proof.
  intros view. subst view. unfold filteredTodos. cbn [todoReducer todos filter].
  split; [|split; [|split]].
  - cbn. induction (todos s) as [|todo rows IH]; [done|]. cbn.
    destruct (truthy (completed todo)); cbn.
    + by constructor.
    + rewrite <- Permutation_middle. by constructor.
  - cbn. intros todo Hc Ha.
    apply list_elem_of_In, filter_In in Hc as [_ Hc].
    apply list_elem_of_In, filter_In in Ha as [_ Ha].
    rewrite Hc in Ha. done.
  - intros shown -> ->. apply filter_fresh. by apply Forall_forall.
  - done.
Qed.
Lemma toggle_twice_witness :
  reachable initialState /\
  todoReducer (todoReducer initialState (TOGGLE_TODO (num 2))) (TOGGLE_TODO (num 2))
    = initialState.
Proof.
  split; [exact reachable_initial|].
  exact (toggle_twice initialState (num 2) reachable_initial).
Defined.

Lemma add_then_delete_witness :
  let now := 1700000000000 in
  Forall (fun todo => strict_eq (id todo) (num now) = false) (todos initialState) /\
  all_white_space "Write the tests" = false /\
  todoReducer (handleAddTodo "Write the tests" now initialState) (REMOVE_TODO (num now))
    = initialState.
Proof.
  intros now.
  assert (Forall (fun todo => strict_eq (id todo) (num now) = false) (todos initialState))
    as Hfresh by (repeat constructor).
  split; [exact Hfresh|]. split; [reflexivity|].
  exact (proj2 (proj2 (add_then_delete initialState "Write the tests" now)) eq_refl Hfresh).
Defined.
End ReducerMore.
